(** * SSD1306 four-wire SPI transport backend (ssd1306_spi.c)

    A shallow embedding of the SPI backend of the esp-ssd1306 driver:
    the packing of the D/C bit into the transaction's [user] word, the
    GPIO helpers, [ssd1306_bind_spi], the three vtable methods
    [spi_send_cmd], [spi_send_data], [spi_reset], and
    [ssd1306_unbind_spi].

    The C code talks to ESP-IDF (GPIO, SPI master, FreeRTOS delay) and to
    the C allocator.  Those calls are modelled as events appended to a
    trace; what they return is decided by an [environment], which sees the
    history so far.  Memory the code reads and writes through pointers (the
    backend context, the device handle) lives in two finite maps keyed by
    address; a dereference of an address that holds no object has no
    defined behaviour in C and yields [Undefined]. *)

From Stdlib Require Import ZArith List Lia Bool.
From Stdlib Require Import Init.Byte.
From stdpp Require Import base option list gmap.

Local Open Scope Z_scope.

(* ------------------------------------------------------------------ *)
(** ** Machine integers and constants *)

(** [uintptr_t], [size_t] and [uint32_t] are 32 bits wide on the ESP32
    family; [int] is 32 bits, two's complement. *)
Definition uintptr_bits : Z := 32.

Definition to_uintptr (x : Z) : Z := x mod 2 ^ uintptr_bits.
Definition to_uint32 (x : Z) : Z := x mod 2 ^ 32.
Definition to_size_t (x : Z) : Z := x mod 2 ^ 32.
Definition to_int (x : Z) : Z :=
  let r := x mod 2 ^ 32 in if r <? 2 ^ 31 then r else r - 2 ^ 32.

(** [~x] at type [uintptr_t]. *)
Definition uintptr_not (x : Z) : Z := to_uintptr (Z.lnot x).

Definition size_sub (a b : Z) : Z := to_size_t (a - b).
Definition size_add (a b : Z) : Z := to_size_t (a + b).

(** Error codes and the "not connected" pin, with the values ESP-IDF gives
    them (esp_err.h, gpio_num.h). *)
Abbreviation esp_err_t := Z.
Definition ESP_OK : esp_err_t := 0.
Definition ESP_ERR_NO_MEM : esp_err_t := 257.       (* 0x101 *)
Definition ESP_ERR_INVALID_ARG : esp_err_t := 258.  (* 0x102 *)

Abbreviation gpio_num_t := Z.
Definition GPIO_NUM_NC : gpio_num_t := -1.

(** Addresses; [NULL] is address 0. *)
Abbreviation ptr := Z.
Definition NULL : ptr := 0.

(* ------------------------------------------------------------------ *)
(** ** Data *)

(** Backend context, [ssd1306_spi_ctx_t]. *)
Record ssd1306_spi_ctx_t : Type := mk_ctx {
  dev      : Z;           (* spi_device_handle_t, 0 when NULL *)
  host     : Z;           (* spi_host_device_t *)
  dc_gpio  : gpio_num_t;  (* required for 4-wire SPI *)
  rst_gpio : gpio_num_t;  (* optional, GPIO_NUM_NC if not used *)
  clk_hz   : Z            (* configured clock *)
}.

(** What [calloc(1, sizeof(ssd1306_spi_ctx_t))] hands out: all bytes zero. *)
Definition zeroed_ctx : ssd1306_spi_ctx_t := mk_ctx 0 0 0 0 0.

Definition set_dev (v : Z) (c : ssd1306_spi_ctx_t) : ssd1306_spi_ctx_t :=
  mk_ctx v (host c) (dc_gpio c) (rst_gpio c) (clk_hz c).

(** The vtables a handle can point to.  This file defines one, [VT_SPI]. *)
Inductive bus_vt_ref : Type := VT_SPI.

(** Modelled from the spec: [struct ssd1306_t] is declared in
    ssd1306_private.h, which is not among the sources.  The spec's device
    handle holds a "transport vtable reference" and an "opaque backend
    context"; these are the two fields the SPI backend reads and writes
    ([d->vt], [d->bus_ctx]).  [vt = None] is the null vtable pointer. *)
Record ssd1306_t : Type := mk_handle {
  vt      : option bus_vt_ref;
  bus_ctx : ptr
}.

Inductive gpio_mode_t : Type := GPIO_MODE_DISABLE | GPIO_MODE_OUTPUT.
Inductive gpio_pullup_t : Type := GPIO_PULLUP_DISABLE.
Inductive gpio_pulldown_t : Type := GPIO_PULLDOWN_DISABLE.
Inductive gpio_int_type_t : Type := GPIO_INTR_DISABLE.

Record gpio_config_t : Type := mk_gpio_config {
  pin_bit_mask : Z;
  mode         : gpio_mode_t;
  pull_up_en   : gpio_pullup_t;
  pull_down_en : gpio_pulldown_t;
  intr_type    : gpio_int_type_t
}.

(** The pre-transfer callbacks a device can be registered with. *)
Inductive pre_cb_ref : Type := cb_spi_pre_cb_set_dc.

Record spi_device_interface_config_t : Type := mk_devcfg {
  clock_speed_hz : Z;
  spi_mode       : Z;   (* field [mode] *)
  spics_io_num   : gpio_num_t;
  queue_size     : Z;
  pre_cb         : pre_cb_ref;
  flags          : Z
}.

(** A transaction after [memset(&t, 0, sizeof t)] and the three stores.
    [tx_buffer] is the pointer [&buf[off]] in C; here it is the [blk] bytes
    that pointer designates, which are the bytes the bus clocks out. *)
Record spi_transaction_t : Type := mk_transaction {
  t_length  : Z;          (* field [length], in bits *)
  tx_buffer : list byte;
  user      : Z
}.

(* ------------------------------------------------------------------ *)
(** ** Effects *)

(** Calls into ESP-IDF, FreeRTOS and libc, with what they returned, and the
    stores into the caller-visible device handle, in program order. *)
Inductive event : Type :=
| EvGpioConfig (io : gpio_config_t)
| EvGpioSetLevel (pin : gpio_num_t) (level : Z)
| EvTaskDelayMs (ms : Z)                 (* vTaskDelay(pdMS_TO_TICKS(ms)) *)
| EvSpiBusAddDevice (h : Z) (cfg : spi_device_interface_config_t)
                    (ret : esp_err_t) (handle : Z)
| EvSpiBusRemoveDevice (handle : Z) (ret : esp_err_t)
| EvSpiPollingTransmit (handle : Z) (t : spi_transaction_t) (ret : esp_err_t)
| EvCalloc (ret : ptr)
| EvFree (p : ptr)
| EvStoreVt (d : ptr) (v : option bus_vt_ref)
| EvStoreBusCtx (d : ptr) (p : ptr).

Record world : Type := mk_world {
  trace   : list event;                    (* oldest first *)
  ctxs    : gmap Z ssd1306_spi_ctx_t;      (* live backend contexts *)
  handles : gmap Z ssd1306_t               (* live device handles *)
}.

(** The outside: every answer may depend on everything that happened. *)
Record environment : Type := mk_env {
  env_add_device :
    list event -> Z -> spi_device_interface_config_t -> esp_err_t * Z;
  env_remove_device : list event -> Z -> esp_err_t;
  env_polling_transmit : list event -> Z -> spi_transaction_t -> esp_err_t;
  env_calloc : list event -> ptr
}.

Inductive result (A : Type) : Type :=
| Done (a : A) (w : world)
| Undefined     (* the C program has no defined behaviour *)
| OutOfFuel.    (* a loop bound of the model was too small *)
Arguments Done {A} a w.
Arguments Undefined {A}.
Arguments OutOfFuel {A}.

Definition M (A : Type) : Type := world -> result A.

Definition ret {A : Type} (a : A) : M A := fun w => Done a w.

Definition bind {A B : Type} (m : M A) (k : A -> M B) : M B :=
  fun w =>
    match m w with
    | Done a w' => k a w'
    | Undefined => Undefined
    | OutOfFuel => OutOfFuel
    end.

Notation "'let*' x ':=' m 'in' k" := (bind m (fun x => k))
  (at level 10, x name, m at level 100, k at level 200).
Notation "m '>>' k" := (bind m (fun _ => k))
  (at level 90, right associativity).

Definition undefined {A : Type} : M A := fun _ => Undefined.
Definition out_of_fuel {A : Type} : M A := fun _ => OutOfFuel.

Definition emit (e : event) : M unit :=
  fun w => Done tt (mk_world (trace w ++ [e]) (ctxs w) (handles w)).

Definition load_ctx (p : ptr) : M ssd1306_spi_ctx_t :=
  fun w => match ctxs w !! p with
           | Some c => Done c w
           | None => Undefined
           end.

Definition store_ctx (p : ptr) (c : ssd1306_spi_ctx_t) : M unit :=
  fun w => match ctxs w !! p with
           | Some _ => Done tt (mk_world (trace w) (<[p := c]> (ctxs w))
                                         (handles w))
           | None => Undefined
           end.

Definition load_handle (d : ptr) : M ssd1306_t :=
  fun w => match handles w !! d with
           | Some h => Done h w
           | None => Undefined
           end.

(** [d->vt = v] *)
Definition store_vt (d : ptr) (v : option bus_vt_ref) : M unit :=
  fun w => match handles w !! d with
           | Some h =>
               Done tt (mk_world (trace w ++ [EvStoreVt d v]) (ctxs w)
                          (<[d := mk_handle v (bus_ctx h)]> (handles w)))
           | None => Undefined
           end.

(** [d->bus_ctx = p] *)
Definition store_bus_ctx (d : ptr) (p : ptr) : M unit :=
  fun w => match handles w !! d with
           | Some h =>
               Done tt (mk_world (trace w ++ [EvStoreBusCtx d p]) (ctxs w)
                          (<[d := mk_handle (vt h) p]> (handles w)))
           | None => Undefined
           end.

(** [&buf[off]] read for [blk] bytes; reading past the end of the caller's
    buffer has no defined behaviour. *)
Definition read_bytes (buf : list byte) (off blk : Z) : M (list byte) :=
  if (0 <=? off) && (0 <=? blk) && (off + blk <=? Z.of_nat (length buf))
  then ret (take (Z.to_nat blk) (drop (Z.to_nat off) buf))
  else undefined.

Section Backend.

Variable env : environment.

(** *** External calls *)

Definition gpio_config (io : gpio_config_t) : M unit := emit (EvGpioConfig io).

Definition gpio_set_level (pin : gpio_num_t) (level : Z) : M unit :=
  emit (EvGpioSetLevel pin level).

(** [vTaskDelay(pdMS_TO_TICKS(ms))]; the conversion to ticks belongs to the
    FreeRTOS configuration and is kept inside the event. *)
Definition vTaskDelay_ms (ms : Z) : M unit := emit (EvTaskDelayMs ms).

Definition spi_bus_add_device (h : Z) (cfg : spi_device_interface_config_t)
  : M (esp_err_t * Z) :=
  fun w =>
    let r := env_add_device env (trace w) h cfg in
    Done r (mk_world (trace w ++ [EvSpiBusAddDevice h cfg (fst r) (snd r)])
                     (ctxs w) (handles w)).

Definition spi_bus_remove_device (handle : Z) : M esp_err_t :=
  fun w =>
    let e := env_remove_device env (trace w) handle in
    Done e (mk_world (trace w ++ [EvSpiBusRemoveDevice handle e])
                     (ctxs w) (handles w)).

Definition spi_device_polling_transmit (handle : Z) (t : spi_transaction_t)
  : M esp_err_t :=
  fun w =>
    let e := env_polling_transmit env (trace w) handle t in
    Done e (mk_world (trace w ++ [EvSpiPollingTransmit handle t e])
                     (ctxs w) (handles w)).

(** [calloc(1, sizeof(ssd1306_spi_ctx_t))]: NULL, or the address of a
    zero-filled context. *)
Definition calloc_ctx : M ptr :=
  fun w =>
    let p := env_calloc env (trace w) in
    Done p (mk_world (trace w ++ [EvCalloc p])
                     (if p =? NULL then ctxs w
                      else <[p := zeroed_ctx]> (ctxs w))
                     (handles w)).

Definition free_ctx (p : ptr) : M unit :=
  fun w =>
    if p =? NULL then Done tt (mk_world (trace w ++ [EvFree p]) (ctxs w)
                                        (handles w))
    else match ctxs w !! p with
         | Some _ => Done tt (mk_world (trace w ++ [EvFree p])
                                (delete p (ctxs w)) (handles w))
         | None => Undefined
         end.

(** *** DC handling via pre-transfer callback *)

Definition pack_user (c : ptr) (dc_bit : Z) : Z :=
  Z.lor (to_uintptr c) (to_uintptr (Z.land dc_bit 1)).

Definition unpack_ctx (u : Z) : ptr :=
  Z.land (to_uintptr u) (uintptr_not (to_uintptr 1)).

Definition unpack_dc (u : Z) : Z := to_int (Z.land (to_uintptr u) 1).

Definition spi_pre_cb_set_dc (t : spi_transaction_t) : M unit :=
  let* c := load_ctx (unpack_ctx (user t)) in
  let dc := unpack_dc (user t) in
  if negb (dc_gpio c =? GPIO_NUM_NC) then gpio_set_level (dc_gpio c) dc
  else ret tt.

(** *** Small GPIO helpers *)

(** [1ULL << pin].  GPIO numbers are below 64; a shift by 64 or more is
    not defined in C and comes out as 0 here. *)
Definition pin_mask (pin : gpio_num_t) : Z := Z.shiftl 1 pin mod 2 ^ 64.

Definition gpio_conf_output (pin : gpio_num_t) (level : Z) : M unit :=
  if pin =? GPIO_NUM_NC then ret tt
  else
    let io := mk_gpio_config (pin_mask pin) GPIO_MODE_OUTPUT
                GPIO_PULLUP_DISABLE GPIO_PULLDOWN_DISABLE GPIO_INTR_DISABLE in
    gpio_config io >>
    gpio_set_level pin level.

Definition gpio_conf_disable (pin : gpio_num_t) : M unit :=
  if pin =? GPIO_NUM_NC then ret tt
  else
    let io := mk_gpio_config (pin_mask pin) GPIO_MODE_DISABLE
                GPIO_PULLUP_DISABLE GPIO_PULLDOWN_DISABLE GPIO_INTR_DISABLE in
    gpio_config io.

(** *** Binding *)

Definition ssd1306_bind_spi (d : ptr) (host_ : Z)
    (cs_gpio dc_gpio_ rst_gpio_ : gpio_num_t) (clk_hz_ : Z) : M esp_err_t :=
  if d =? NULL then ret ESP_ERR_INVALID_ARG else
  if dc_gpio_ =? GPIO_NUM_NC then ret ESP_ERR_INVALID_ARG else
  let clk_hz_ := if clk_hz_ <=? 0 then 8 * 1000 * 1000 else clk_hz_ in
  (* Configure control pins *)
  gpio_conf_output dc_gpio_ 0 >>
  gpio_conf_output rst_gpio_ 1 >>
  (* Add a device on the already-initialized SPI bus *)
  let devcfg := mk_devcfg clk_hz_ 0 cs_gpio 2 cb_spi_pre_cb_set_dc 0 in
  let* r := spi_bus_add_device host_ devcfg in
  if negb (fst r =? ESP_OK) then ret (fst r) else
  let dev_ := snd r in
  (* Allocate context *)
  let* ctx := calloc_ctx in
  if ctx =? NULL then
    spi_bus_remove_device dev_ >>
    ret ESP_ERR_NO_MEM
  else
  (* ctx->dev, ->host, ->dc_gpio, ->rst_gpio, ->clk_hz: all five fields *)
  store_ctx ctx (mk_ctx dev_ host_ dc_gpio_ rst_gpio_ clk_hz_) >>
  (* Optional hardware reset pulse *)
  (if negb (rst_gpio_ =? GPIO_NUM_NC) then
     gpio_set_level rst_gpio_ 1 >>
     vTaskDelay_ms 1 >>
     gpio_set_level rst_gpio_ 0 >>
     vTaskDelay_ms 1 >>
     gpio_set_level rst_gpio_ 1 >>
     vTaskDelay_ms 5
   else ret tt) >>
  store_vt d (Some VT_SPI) >>
  store_bus_ctx d ctx >>
  ret ESP_OK.

(** *** Vtable methods *)

(** The [while (off < n)] loop of [spi_send_cmd] and [spi_send_data]; the
    two copies differ in [MAX] and in the D/C bit only.  Every round moves
    [off] forward, so [n] rounds of fuel are enough. *)
Fixpoint spi_send_loop (MAX dc_bit : Z) (fuel : nat) (ctx : ptr)
    (buf : list byte) (n off : Z) : M esp_err_t :=
  if off <? n then
    match fuel with
    | O => out_of_fuel
    | S fuel' =>
        let blk := if size_sub n off >? MAX then MAX else size_sub n off in
        let* chunk := read_bytes buf off blk in
        let t := mk_transaction (to_uint32 (blk * 8)) chunk
                                (pack_user ctx dc_bit) in
        let* c := load_ctx ctx in
        let* e := spi_device_polling_transmit (dev c) t in
        if negb (e =? ESP_OK) then ret e else
        spi_send_loop MAX dc_bit fuel' ctx buf n (size_add off blk)
    end
  else ret ESP_OK.

(** The payload pointer is [None] when NULL, else the caller's buffer.
    The guard [!ctx || !cmds || n == 0] comes first; ESP_RETURN_ON_ERROR
    logs and returns the code it was given (logging is not modelled). *)
Definition spi_send_cmd (ctx_ : ptr) (cmds : option (list byte)) (n : Z)
  : M esp_err_t :=
  match cmds with
  | None => ret ESP_OK
  | Some buf =>
      if (ctx_ =? NULL) || (n =? 0) then ret ESP_OK
      else spi_send_loop 32 0 (Z.to_nat n) ctx_ buf n 0
  end.

Definition spi_send_data (ctx_ : ptr) (data : option (list byte)) (n : Z)
  : M esp_err_t :=
  match data with
  | None => ret ESP_OK
  | Some buf =>
      if (ctx_ =? NULL) || (n =? 0) then ret ESP_OK
      else spi_send_loop 1024 1 (Z.to_nat n) ctx_ buf n 0
  end.

Definition spi_reset (ctx_ : ptr) : M esp_err_t :=
  if ctx_ =? NULL then ret ESP_OK else
  let* c := load_ctx ctx_ in
  if rst_gpio c =? GPIO_NUM_NC then ret ESP_OK else
  gpio_set_level (rst_gpio c) 0 >>
  vTaskDelay_ms 10 >>
  gpio_set_level (rst_gpio c) 1 >>
  vTaskDelay_ms 10 >>
  ret ESP_OK.

(** The vtable [VT_SPI]. *)
Record ssd1306_bus_vt_t : Type := mk_vt {
  send_cmd  : ptr -> option (list byte) -> Z -> M esp_err_t;
  send_data : ptr -> option (list byte) -> Z -> M esp_err_t;
  reset     : ptr -> M esp_err_t
}.

Definition VT_SPI_table : ssd1306_bus_vt_t :=
  mk_vt spi_send_cmd spi_send_data spi_reset.

(** *** Unbinding *)

Definition ssd1306_unbind_spi (d : ptr) : M esp_err_t :=
  if d =? NULL then ret ESP_OK else
  let* h := load_handle d in
  if bus_ctx h =? NULL then ret ESP_OK else
  let ctx := bus_ctx h in
  let* c := load_ctx ctx in
  let* ret_ :=
    (if negb (dev c =? NULL) then
       let* e := spi_bus_remove_device (dev c) in
       store_ctx ctx (set_dev NULL c) >>
       ret (if negb (e =? ESP_OK) then e else ESP_OK)
     else ret ESP_OK) in
  (* Neutralize pins *)
  gpio_conf_disable (dc_gpio c) >>
  gpio_conf_disable (rst_gpio c) >>
  free_ctx ctx >>
  store_bus_ctx d NULL >>
  store_vt d None >>
  ret ret_.

End Backend.

(* ------------------------------------------------------------------ *)
(** ** Vocabulary of the statements *)

(** A handle is never partially bound. *)
Definition bound_state_ok (h : ssd1306_t) : Prop :=
  (vt h = None /\ bus_ctx h = NULL) \/ (vt h <> None /\ bus_ctx h <> NULL).

(** The handle at [d] is live, not partially bound, and its context, when it
    has one, is live too. *)
Definition handle_wf (w : world) (d : ptr) : Prop :=
  exists h, handles w !! d = Some h /\ bound_state_ok h /\
            (bus_ctx h <> NULL -> is_Some (ctxs w !! bus_ctx h)).

(** Events the GPIO helpers leave behind. *)
Definition gpio_conf_output_events (pin : gpio_num_t) (level : Z) : list event :=
  if pin =? GPIO_NUM_NC then []
  else [EvGpioConfig (mk_gpio_config (pin_mask pin) GPIO_MODE_OUTPUT
                        GPIO_PULLUP_DISABLE GPIO_PULLDOWN_DISABLE
                        GPIO_INTR_DISABLE);
        EvGpioSetLevel pin level].

Definition gpio_conf_disable_events (pin : gpio_num_t) : list event :=
  if pin =? GPIO_NUM_NC then []
  else [EvGpioConfig (mk_gpio_config (pin_mask pin) GPIO_MODE_DISABLE
                        GPIO_PULLUP_DISABLE GPIO_PULLDOWN_DISABLE
                        GPIO_INTR_DISABLE)].

(** The trace of a bind at the moment it asks the bus for a device. *)
Definition bind_setup_trace (w : world) (dc_gpio_ rst_gpio_ : gpio_num_t)
  : list event :=
  trace w ++ gpio_conf_output_events dc_gpio_ 0
          ++ gpio_conf_output_events rst_gpio_ 1.

(** How many times a device was taken off the bus. *)
Definition is_remove_device (e : event) : bool :=
  match e with EvSpiBusRemoveDevice _ _ => true | _ => false end.

Definition remove_device_calls (tr : list event) : nat :=
  length (List.filter is_remove_device tr).

Definition is_transmit (e : event) : bool :=
  match e with EvSpiPollingTransmit _ _ _ => true | _ => false end.

(** A run of transactions on one device, each with what it returned. *)
Definition transmit_events (handle : Z)
    (txs : list (spi_transaction_t * esp_err_t)) : list event :=
  map (fun x => EvSpiPollingTransmit handle (fst x) (snd x)) txs.

Definition sent_bytes (txs : list (spi_transaction_t * esp_err_t))
  : list byte :=
  concat (map (fun x => tx_buffer (fst x)) txs).

(** One chunk of at most [MAX] bytes, tagged with [ctx] and the D/C bit. *)
Definition chunk_ok (MAX dc_bit : Z) (ctx : ptr)
    (x : spi_transaction_t * esp_err_t) : Prop :=
  let t := fst x in
  0 < Z.of_nat (length (tx_buffer t)) <= MAX /\
  t_length t = 8 * Z.of_nat (length (tx_buffer t)) /\
  user t = pack_user ctx dc_bit /\
  unpack_dc (user t) = dc_bit.

(** What a chunked send of [payload] starting in [w] amounts to: the run
    [r] ends, the world gained exactly a list of transactions on the
    context's device, each a well-formed chunk; either all succeeded, the
    chunks add up to the payload and the call returns [ESP_OK], or all but
    the last succeeded, the last one's error code is returned, and what was
    sent is the payload up to and including the failing chunk. *)
Definition chunked_transfer (MAX dc_bit : Z) (ctx : ptr)
    (c : ssd1306_spi_ctx_t) (payload : list byte) (w : world)
    (r : result esp_err_t) : Prop :=
  exists (txs : list (spi_transaction_t * esp_err_t)) (e : esp_err_t),
    r = Done e (mk_world (trace w ++ transmit_events (dev c) txs)
                         (ctxs w) (handles w)) /\
    Forall (chunk_ok MAX dc_bit ctx) txs /\
    ((e = ESP_OK /\
      Forall (fun x => snd x = ESP_OK) txs /\
      sent_bytes txs = payload)
     \/
     (e <> ESP_OK /\
      exists txs' t rest,
        txs = txs' ++ [(t, e)] /\
        Forall (fun x => snd x = ESP_OK) txs' /\
        payload = sent_bytes txs ++ rest)).

(** Calls a client can make on one handle. *)
Inductive api_call : Type :=
| CallBind (host_ : Z) (cs_gpio dc_gpio_ rst_gpio_ : gpio_num_t) (clk_hz_ : Z)
| CallUnbind.

Definition run_call (env : environment) (d : ptr) (c : api_call)
  : M esp_err_t :=
  match c with
  | CallBind host_ cs_gpio dc_gpio_ rst_gpio_ clk_hz_ =>
      ssd1306_bind_spi env d host_ cs_gpio dc_gpio_ rst_gpio_ clk_hz_
  | CallUnbind => ssd1306_unbind_spi env d
  end.

(** The calls one after the other, return values collected. *)
Fixpoint run_calls (env : environment) (d : ptr) (cs : list api_call)
  : M (list esp_err_t) :=
  match cs with
  | [] => ret []
  | c :: cs' =>
      let* e := run_call env d c in
      let* es := run_calls env d cs' in
      ret (e :: es)
  end.

(** *** Sample environments and worlds *)

(** Everything succeeds; the bus hands out device 77, the allocator the
    address 4096. *)
Definition env_all_ok : environment :=
  mk_env (fun _ _ _ => (ESP_OK, 77)) (fun _ _ => ESP_OK)
         (fun _ _ _ => ESP_OK) (fun _ => 4096).

(** As [env_all_ok], but the allocator is exhausted. *)
Definition env_no_mem : environment :=
  mk_env (fun _ _ _ => (ESP_OK, 77)) (fun _ _ => ESP_OK)
         (fun _ _ _ => ESP_OK) (fun _ => NULL).

(** As [env_all_ok], but the third bus transaction times out (0x107). *)
Definition env_third_transfer_fails : environment :=
  mk_env (fun _ _ _ => (ESP_OK, 77)) (fun _ _ => ESP_OK)
         (fun tr _ _ =>
            if (length (List.filter is_transmit tr) =? 2)%nat
            then 263 else ESP_OK)
         (fun _ => 4096).

(** One unbound handle at address 100, nothing else. *)
Definition w_unbound : world :=
  mk_world [] ∅ (<[100 := mk_handle None NULL]> ∅).

(** The handle at 100 bound to a context at 4096 with reset pin 6. *)
Definition w_bound : world :=
  mk_world [] (<[4096 := mk_ctx 77 1 4 6 8000000]> ∅)
              (<[100 := mk_handle (Some VT_SPI) 4096]> ∅).

(** The same without a reset pin. *)
Definition w_bound_no_rst : world :=
  mk_world [] (<[4096 := mk_ctx 77 1 4 GPIO_NUM_NC 8000000]> ∅)
              (<[100 := mk_handle (Some VT_SPI) 4096]> ∅).

(** The device configuration a bind registers. *)
Definition bind_devcfg (cs_gpio : gpio_num_t) (clk_hz_ : Z)
  : spi_device_interface_config_t :=
  mk_devcfg (if clk_hz_ <=? 0 then 8 * 1000 * 1000 else clk_hz_) 0 cs_gpio 2
            cb_spi_pre_cb_set_dc 0.

(** The reset pulse of a bind. *)
Definition bind_pulse_events (rst_gpio_ : gpio_num_t) : list event :=
  if rst_gpio_ =? GPIO_NUM_NC then []
  else [EvGpioSetLevel rst_gpio_ 1; EvTaskDelayMs 1;
        EvGpioSetLevel rst_gpio_ 0; EvTaskDelayMs 1;
        EvGpioSetLevel rst_gpio_ 1; EvTaskDelayMs 5].

(** *** More vocabulary: frees, and further sample worlds *)

Definition is_free (e : event) : bool :=
  match e with EvFree _ => true | _ => false end.

(** How many times [free] was called. *)
Definition free_calls (tr : list event) : nat :=
  length (List.filter is_free tr).

(** The bus refuses the device (ESP_ERR_NOT_FOUND, 0x105). *)
Definition env_bus_refuses : environment :=
  mk_env (fun _ _ _ => (261, 0)) (fun _ _ => ESP_OK)
         (fun _ _ _ => ESP_OK) (fun _ => 4096).

(** The allocator hands out 8192; everything else as in [env_all_ok]. *)
Definition env_alloc_8192 : environment :=
  mk_env (fun _ _ _ => (ESP_OK, 78)) (fun _ _ => ESP_OK)
         (fun _ _ _ => ESP_OK) (fun _ => 8192).

(** A bound handle whose context has lost its bus device. *)
Definition w_bound_no_dev : world :=
  mk_world [] (<[4096 := mk_ctx NULL 1 4 6 8000000]> ∅)
              (<[100 := mk_handle (Some VT_SPI) 4096]> ∅).

(** Two handles: the one at 100 unbound, the one at 200 bound. *)
Definition w_two_handles : world :=
  mk_world [] (<[4096 := mk_ctx 77 1 4 6 8000000]> ∅)
              (<[200 := mk_handle (Some VT_SPI) 4096]>
                 (<[100 := mk_handle None NULL]> ∅)).

(** A run of transactions in which every chunk but the last carries exactly
    [MAX] bytes, and which, when it ends in [ESP_OK], is made of
    ceil(n / MAX) transactions for a payload of [n] bytes. *)
Definition exact_chunking (MAX : Z) (c : ssd1306_spi_ctx_t)
    (payload : list byte) (w : world) (r : result esp_err_t) : Prop :=
  exists (txs : list (spi_transaction_t * esp_err_t)) (e : esp_err_t),
    r = Done e (mk_world (trace w ++ transmit_events (dev c) txs)
                         (ctxs w) (handles w)) /\
    (forall (i : nat) (x : spi_transaction_t * esp_err_t),
        (S i < length txs)%nat ->
        txs !! i = Some x ->
        Z.of_nat (length (tx_buffer (fst x))) = MAX) /\
    (e = ESP_OK ->
     Z.of_nat (length txs) = (Z.of_nat (length payload) + MAX - 1) / MAX).

(** The callback, run before transaction [t] in any world where [ctx] is
    live, drives the context's D/C pin to [level] and does nothing else. *)
Definition callback_drives_dc (ctx : ptr) (c : ssd1306_spi_ctx_t) (level : Z)
    (t : spi_transaction_t) : Prop :=
  forall w2 : world,
    ctxs w2 !! ctx = Some c ->
    spi_pre_cb_set_dc t w2 =
    Done tt (mk_world (trace w2 ++ [EvGpioSetLevel (dc_gpio c) level])
                      (ctxs w2) (handles w2)).

(* ------------------------------------------------------------------ *)
(** ** Bit-level facts about the packed [user] word *)

Lemma land_1_cases (x : Z) : Z.land x 1 = 0 \/ Z.land x 1 = 1.
Proof.
  assert (H : Z.land x 1 = x mod 2).
  { change 1 with (Z.ones 1). rewrite Z.land_ones by lia. reflexivity. }
  pose proof (Z.mod_pos_bound x 2 ltac:(lia)). lia.
Qed.

Lemma testbit_flag (b n : Z) :
  b = 0 \/ b = 1 -> 0 < n -> Z.testbit b n = false.
Proof.
  intros [-> | ->] Hn.
  - apply Z.bits_0.
  - destruct n; try lia; reflexivity.
Qed.

Lemma testbit_clear_mask (n : Z) :
  0 <= n ->
  Z.testbit (uintptr_not (to_uintptr 1)) n = (n <? uintptr_bits) && negb (n =? 0).
Proof.
  intros Hn. unfold uintptr_not, to_uintptr, uintptr_bits.
  change (1 mod 2 ^ 32) with 1.
  destruct (Z.ltb_spec n 32).
  - rewrite Z.mod_pow2_bits_low by lia.
    rewrite Z.lnot_spec by lia. simpl.
    destruct (Z.eqb_spec n 0) as [-> | Hne]; [reflexivity|].
    rewrite (testbit_flag 1 n) by lia. reflexivity.
  - rewrite Z.mod_pow2_bits_high by lia. reflexivity.
Qed.

Lemma testbit_above_width (p n : Z) :
  0 <= p < 2 ^ uintptr_bits -> uintptr_bits <= n -> Z.testbit p n = false.
Proof.
  intros Hp Hn. unfold uintptr_bits in *.
  rewrite <- (Z.mod_small p (2 ^ 32)) by lia.
  apply Z.mod_pow2_bits_high. lia.
Qed.

Lemma to_uintptr_small (p : Z) : 0 <= p < 2 ^ uintptr_bits -> to_uintptr p = p.
Proof. intros Hp. unfold to_uintptr. apply Z.mod_small. exact Hp. Qed.

Lemma to_uintptr_flag (b : Z) : b = 0 \/ b = 1 -> to_uintptr b = b.
Proof. intros [-> | ->]; reflexivity. Qed.

Lemma lor_flag_range (p b : Z) :
  0 <= p < 2 ^ uintptr_bits -> Z.testbit p 0 = false -> b = 0 \/ b = 1 ->
  Z.lor p b = p + b /\ 0 <= Z.lor p b < 2 ^ uintptr_bits.
Proof.
  intros Hp H0 Hb.
  assert (Hdisj : Z.land p b = 0).
  { apply Z.bits_inj'. intros n Hn. rewrite Z.land_spec, Z.bits_0.
    destruct (Z.eqb_spec n 0) as [-> | Hne].
    - rewrite H0. reflexivity.
    - rewrite (testbit_flag b n) by lia. apply andb_false_r. }
  assert (Hsum : Z.lor p b = p + b).
  { rewrite <- Z.lxor_lor by exact Hdisj. symmetry.
    apply Z.add_nocarry_lxor. exact Hdisj. }
  split; [exact Hsum|]. rewrite Hsum.
  assert (Heven : p mod 2 = 0).
  { pose proof (Z.bit0_mod p) as Hb0. rewrite H0 in Hb0.
    symmetry. exact Hb0. }
  unfold uintptr_bits in *.
  assert (Hodd : (2 ^ 32) mod 2 = 0) by reflexivity.
  pose proof (Z.div_mod p 2). pose proof (Z.div_mod (2 ^ 32) 2).
  lia.
Qed.

Lemma unpack_ctx_pack_user (ctx dc : Z) :
  0 <= ctx < 2 ^ uintptr_bits -> Z.testbit ctx 0 = false ->
  unpack_ctx (pack_user ctx dc) = ctx.
Proof.
  intros Hp H0. unfold unpack_ctx, pack_user.
  pose proof (land_1_cases dc) as Hb.
  rewrite (to_uintptr_small ctx), (to_uintptr_flag (Z.land dc 1)) by assumption.
  destruct (lor_flag_range ctx (Z.land dc 1) Hp H0 Hb) as [_ Hr].
  rewrite to_uintptr_small by exact Hr.
  apply Z.bits_inj'. intros n Hn.
  rewrite Z.land_spec, Z.lor_spec, testbit_clear_mask by lia.
  destruct (Z.eqb_spec n 0) as [-> | Hne]; cbn [negb].
  - rewrite H0, !andb_false_r. reflexivity.
  - rewrite (testbit_flag (Z.land dc 1) n) by lia.
    rewrite orb_false_r, andb_true_r.
    destruct (Z.ltb_spec n uintptr_bits) as [Hlt | Hge].
    + apply andb_true_r.
    + rewrite andb_false_r.
      symmetry. apply testbit_above_width; assumption.
Qed.

Lemma unpack_dc_pack_user (ctx dc : Z) :
  0 <= ctx < 2 ^ uintptr_bits -> Z.testbit ctx 0 = false ->
  unpack_dc (pack_user ctx dc) = Z.land dc 1.
Proof.
  intros Hp H0. unfold unpack_dc, pack_user.
  pose proof (land_1_cases dc) as Hb.
  rewrite (to_uintptr_small ctx), (to_uintptr_flag (Z.land dc 1)) by assumption.
  destruct (lor_flag_range ctx (Z.land dc 1) Hp H0 Hb) as [_ Hr].
  rewrite to_uintptr_small by exact Hr.
  rewrite Z.land_lor_distr_l.
  assert (Hc : Z.land ctx 1 = 0).
  { apply Z.bits_inj'. intros n Hn. rewrite Z.land_spec, Z.bits_0.
    destruct (Z.eqb_spec n 0) as [-> | Hne].
    - rewrite H0. reflexivity.
    - rewrite (testbit_flag 1 n) by lia. apply andb_false_r. }
  rewrite Hc, Z.lor_0_l, <- Z.land_assoc. change (Z.land 1 1) with 1.
  destruct Hb as [-> | ->]; reflexivity.
Qed.

(** Without the alignment assumption the D/C bit still survives. *)
Lemma unpack_dc_pack_user_any (ctx dc : Z) :
  unpack_dc (pack_user ctx dc) = Z.lor (Z.land ctx 1) (Z.land dc 1).
Proof.
  unfold unpack_dc, pack_user.
  assert (Hlow : forall x, Z.land (to_uintptr x) 1 = Z.land x 1).
  { intros x. unfold to_uintptr, uintptr_bits.
    apply Z.bits_inj'. intros n Hn. rewrite !Z.land_spec.
    destruct (Z.eqb_spec n 0) as [-> | Hne].
    - rewrite Z.mod_pow2_bits_low by lia. reflexivity.
    - rewrite (testbit_flag 1 n) by lia. rewrite !andb_false_r.
      reflexivity. }
  rewrite Hlow, Z.land_lor_distr_l, !Hlow, <- Z.land_assoc.
  change (Z.land 1 1) with 1.
  destruct (land_1_cases ctx) as [-> | ->], (land_1_cases dc) as [-> | ->];
    reflexivity.
Qed.

(* ------------------------------------------------------------------ *)
(** ** Stepping through the monad *)

Lemma bind_Done {A B : Type} (m : M A) (k : A -> M B) (w w' : world) (a : A) :
  m w = Done a w' -> bind m k w = k a w'.
Proof. intros H. unfold bind. rewrite H. reflexivity. Qed.

Lemma load_ctx_live (p : ptr) (c : ssd1306_spi_ctx_t) (w : world) :
  ctxs w !! p = Some c -> load_ctx p w = Done c w.
Proof. intros H. unfold load_ctx. rewrite H. reflexivity. Qed.

Lemma load_handle_live (d : ptr) (h : ssd1306_t) (w : world) :
  handles w !! d = Some h -> load_handle d w = Done h w.
Proof. intros H. unfold load_handle. rewrite H. reflexivity. Qed.

Lemma world_eta (w : world) : mk_world (trace w) (ctxs w) (handles w) = w.
Proof. destruct w; reflexivity. Qed.

Lemma gpio_conf_output_run (pin : gpio_num_t) (level : Z) (w : world) :
  gpio_conf_output pin level w =
  Done tt (mk_world (trace w ++ gpio_conf_output_events pin level)
                    (ctxs w) (handles w)).
Proof.
  unfold gpio_conf_output, gpio_conf_output_events.
  destruct (pin =? GPIO_NUM_NC).
  - unfold ret. rewrite app_nil_r, world_eta. reflexivity.
  - unfold bind, gpio_config, gpio_set_level, emit. cbn [trace ctxs handles].
    rewrite <- app_assoc. reflexivity.
Qed.

Lemma gpio_conf_disable_run (pin : gpio_num_t) (w : world) :
  gpio_conf_disable pin w =
  Done tt (mk_world (trace w ++ gpio_conf_disable_events pin)
                    (ctxs w) (handles w)).
Proof.
  unfold gpio_conf_disable, gpio_conf_disable_events.
  destruct (pin =? GPIO_NUM_NC).
  - unfold ret. rewrite app_nil_r, world_eta. reflexivity.
  - reflexivity.
Qed.

Lemma store_ctx_live (p : ptr) (c0 c : ssd1306_spi_ctx_t) (w : world) :
  ctxs w !! p = Some c0 ->
  store_ctx p c w = Done tt (mk_world (trace w) (<[p := c]> (ctxs w))
                                      (handles w)).
Proof. intros H. unfold store_ctx. rewrite H. reflexivity. Qed.

Lemma store_vt_live (d : ptr) (v : option bus_vt_ref) (h : ssd1306_t)
    (w : world) :
  handles w !! d = Some h ->
  store_vt d v w =
  Done tt (mk_world (trace w ++ [EvStoreVt d v]) (ctxs w)
                    (<[d := mk_handle v (bus_ctx h)]> (handles w))).
Proof. intros H. unfold store_vt. rewrite H. reflexivity. Qed.

Lemma store_bus_ctx_live (d p : ptr) (h : ssd1306_t) (w : world) :
  handles w !! d = Some h ->
  store_bus_ctx d p w =
  Done tt (mk_world (trace w ++ [EvStoreBusCtx d p]) (ctxs w)
                    (<[d := mk_handle (vt h) p]> (handles w))).
Proof. intros H. unfold store_bus_ctx. rewrite H. reflexivity. Qed.

Lemma bind_pulse_run (rst_gpio_ : gpio_num_t) (w : world) :
  (if negb (rst_gpio_ =? GPIO_NUM_NC) then
     gpio_set_level rst_gpio_ 1 >>
     vTaskDelay_ms 1 >>
     gpio_set_level rst_gpio_ 0 >>
     vTaskDelay_ms 1 >>
     gpio_set_level rst_gpio_ 1 >>
     vTaskDelay_ms 5
   else ret tt) w =
  Done tt (mk_world (trace w ++ bind_pulse_events rst_gpio_)
                    (ctxs w) (handles w)).
Proof.
  unfold bind_pulse_events.
  destruct (rst_gpio_ =? GPIO_NUM_NC); cbn [negb].
  - unfold ret. rewrite app_nil_r, world_eta. reflexivity.
  - unfold bind, gpio_set_level, vTaskDelay_ms, emit.
    cbn [trace ctxs handles]. rewrite <- !app_assoc. reflexivity.
Qed.

Ltac run_step :=
  erewrite bind_Done by
    first [ apply gpio_conf_output_run
          | apply gpio_conf_disable_run
          | apply bind_pulse_run
          | (apply load_ctx_live; eassumption)
          | (apply load_handle_live; eassumption)
          | reflexivity ];
  cbn [trace ctxs handles fst snd].

(* ------------------------------------------------------------------ *)
(** ** The three ways a bind with valid arguments can end *)

Section BindOutcomes.

Variable env : environment.
Variables (d : ptr) (host_ : Z) (cs_gpio dc_gpio_ rst_gpio_ : gpio_num_t).
Variable clk_hz_ : Z.
Variable w : world.

Hypothesis d_not_null : d <> NULL.
Hypothesis dc_present : dc_gpio_ <> GPIO_NUM_NC.

Local Abbreviation tr1 := (bind_setup_trace w dc_gpio_ rst_gpio_).
Local Abbreviation cfg := (bind_devcfg cs_gpio clk_hz_).

Lemma bind_spi_add_device_fails :
  fst (env_add_device env tr1 host_ cfg) <> ESP_OK ->
  ssd1306_bind_spi env d host_ cs_gpio dc_gpio_ rst_gpio_ clk_hz_ w =
  Done (fst (env_add_device env tr1 host_ cfg))
       (mk_world (tr1 ++ [EvSpiBusAddDevice host_ cfg
                            (fst (env_add_device env tr1 host_ cfg))
                            (snd (env_add_device env tr1 host_ cfg))])
                 (ctxs w) (handles w)).
Proof.
  intros Hfail. unfold ssd1306_bind_spi.
  destruct (Z.eqb_spec d NULL) as [? | _]; [contradiction|].
  destruct (Z.eqb_spec dc_gpio_ GPIO_NUM_NC) as [? | _]; [contradiction|].
  do 2 run_step.
  erewrite bind_Done by reflexivity. cbn [trace ctxs handles fst snd].
  fold (bind_devcfg cs_gpio clk_hz_).
  rewrite <- (app_assoc (trace w)).
  fold (bind_setup_trace w dc_gpio_ rst_gpio_).
  destruct (Z.eqb_spec (fst (env_add_device env tr1 host_ cfg)) ESP_OK)
    as [? | _]; [contradiction|].
  reflexivity.
Qed.

Lemma bind_spi_calloc_fails (dev_ : Z) :
  env_add_device env tr1 host_ cfg = (ESP_OK, dev_) ->
  env_calloc env (tr1 ++ [EvSpiBusAddDevice host_ cfg ESP_OK dev_]) = NULL ->
  ssd1306_bind_spi env d host_ cs_gpio dc_gpio_ rst_gpio_ clk_hz_ w =
  Done ESP_ERR_NO_MEM
       (mk_world
          (tr1 ++ [EvSpiBusAddDevice host_ cfg ESP_OK dev_;
                   EvCalloc NULL;
                   EvSpiBusRemoveDevice dev_
                     (env_remove_device env
                        (tr1 ++ [EvSpiBusAddDevice host_ cfg ESP_OK dev_;
                                 EvCalloc NULL]) dev_)])
          (ctxs w) (handles w)).
Proof.
  intros Hadd Hcalloc. unfold ssd1306_bind_spi.
  destruct (Z.eqb_spec d NULL) as [? | _]; [contradiction|].
  destruct (Z.eqb_spec dc_gpio_ GPIO_NUM_NC) as [? | _]; [contradiction|].
  do 2 run_step.
  erewrite bind_Done by reflexivity. cbn [trace ctxs handles fst snd].
  fold (bind_devcfg cs_gpio clk_hz_).
  rewrite <- (app_assoc (trace w)).
  fold (bind_setup_trace w dc_gpio_ rst_gpio_).
  rewrite Hadd. cbn [fst snd].
  change (ESP_OK =? ESP_OK) with true. cbn [negb].
  erewrite bind_Done by reflexivity. cbn [trace ctxs handles].
  rewrite Hcalloc. change (NULL =? NULL) with true. cbn iota.
  erewrite bind_Done by reflexivity. cbn [trace ctxs handles].
  unfold ret. rewrite <- !app_assoc. reflexivity.
Qed.

Lemma bind_spi_succeeds (h0 : ssd1306_t) (dev_ : Z) (p : ptr) :
  handles w !! d = Some h0 ->
  env_add_device env tr1 host_ cfg = (ESP_OK, dev_) ->
  env_calloc env (tr1 ++ [EvSpiBusAddDevice host_ cfg ESP_OK dev_]) = p ->
  p <> NULL ->
  ssd1306_bind_spi env d host_ cs_gpio dc_gpio_ rst_gpio_ clk_hz_ w =
  Done ESP_OK
       (mk_world
          (tr1 ++ [EvSpiBusAddDevice host_ cfg ESP_OK dev_; EvCalloc p]
               ++ bind_pulse_events rst_gpio_
               ++ [EvStoreVt d (Some VT_SPI); EvStoreBusCtx d p])
          (<[p := mk_ctx dev_ host_ dc_gpio_ rst_gpio_
                         (clock_speed_hz cfg)]> (ctxs w))
          (<[d := mk_handle (Some VT_SPI) p]> (handles w))).
Proof.
  intros Hd Hadd Hcalloc Hp. unfold ssd1306_bind_spi.
  destruct (Z.eqb_spec d NULL) as [? | _]; [contradiction|].
  destruct (Z.eqb_spec dc_gpio_ GPIO_NUM_NC) as [? | _]; [contradiction|].
  do 2 run_step.
  erewrite bind_Done by reflexivity. cbn [trace ctxs handles fst snd].
  fold (bind_devcfg cs_gpio clk_hz_).
  rewrite <- (app_assoc (trace w)).
  fold (bind_setup_trace w dc_gpio_ rst_gpio_).
  rewrite Hadd. cbn [fst snd].
  change (ESP_OK =? ESP_OK) with true. cbn [negb].
  erewrite bind_Done by reflexivity. cbn [trace ctxs handles].
  rewrite Hcalloc.
  destruct (Z.eqb_spec p NULL) as [? | _]; [contradiction|].
  erewrite bind_Done by (eapply store_ctx_live; cbn [ctxs];
                         apply lookup_insert_eq).
  cbn [trace ctxs handles].
  run_step.
  erewrite bind_Done by (eapply store_vt_live; cbn [handles]; exact Hd).
  cbn [trace ctxs handles].
  erewrite bind_Done by (eapply store_bus_ctx_live; cbn [handles];
                         apply lookup_insert_eq).
  cbn [trace ctxs handles vt bus_ctx].
  rewrite !insert_insert_eq. unfold ret.
  rewrite <- !app_assoc. reflexivity.
Qed.

End BindOutcomes.

(* ------------------------------------------------------------------ *)
(** ** What an unbind of a bound handle does *)

Lemma free_ctx_live (p : ptr) (c : ssd1306_spi_ctx_t) (w : world) :
  p <> NULL -> ctxs w !! p = Some c ->
  free_ctx p w = Done tt (mk_world (trace w ++ [EvFree p])
                                   (delete p (ctxs w)) (handles w)).
Proof.
  intros Hp H. unfold free_ctx.
  destruct (Z.eqb_spec p NULL) as [? | _]; [contradiction|].
  rewrite H. reflexivity.
Qed.

Lemma unbind_spi_bound (env : environment) (d : ptr) (h : ssd1306_t)
    (c : ssd1306_spi_ctx_t) (w : world) :
  d <> NULL ->
  handles w !! d = Some h ->
  bus_ctx h <> NULL ->
  ctxs w !! bus_ctx h = Some c ->
  ssd1306_unbind_spi env d w =
  Done (if dev c =? NULL then ESP_OK
        else env_remove_device env (trace w) (dev c))
       (mk_world
          (trace w
             ++ (if dev c =? NULL then []
                 else [EvSpiBusRemoveDevice (dev c)
                         (env_remove_device env (trace w) (dev c))])
             ++ gpio_conf_disable_events (dc_gpio c)
             ++ gpio_conf_disable_events (rst_gpio c)
             ++ [EvFree (bus_ctx h); EvStoreBusCtx d NULL; EvStoreVt d None])
          (delete (bus_ctx h) (ctxs w))
          (<[d := mk_handle None NULL]> (handles w))).
Proof.
  intros Hd Hh Hp Hc. unfold ssd1306_unbind_spi.
  destruct (Z.eqb_spec d NULL) as [? | _]; [contradiction|].
  run_step.
  destruct (Z.eqb_spec (bus_ctx h) NULL) as [? | _]; [contradiction|].
  run_step.
  destruct (Z.eqb_spec (dev c) NULL) as [Hdev | Hdev]; cbn [negb].
  - run_step. do 2 run_step.
    erewrite bind_Done by (eapply free_ctx_live; cbn [ctxs]; eassumption).
    cbn [trace ctxs handles].
    erewrite bind_Done by (eapply store_bus_ctx_live; cbn [handles];
                           exact Hh).
    cbn [trace ctxs handles].
    erewrite bind_Done by (eapply store_vt_live; cbn [handles];
                           apply lookup_insert_eq).
    cbn [trace ctxs handles vt bus_ctx].
    rewrite insert_insert_eq. unfold ret.
    rewrite <- !app_assoc. reflexivity.
  - erewrite bind_Done; cycle 1.
    { erewrite bind_Done by reflexivity. cbn [trace ctxs handles].
      erewrite bind_Done by (eapply store_ctx_live; cbn [ctxs]; exact Hc).
      reflexivity. }
    cbn [trace ctxs handles].
    do 2 run_step.
    erewrite bind_Done by (eapply free_ctx_live; cbn [ctxs];
                           [exact Hp | apply lookup_insert_eq]).
    cbn [trace ctxs handles].
    erewrite bind_Done by (eapply store_bus_ctx_live; cbn [handles];
                           exact Hh).
    cbn [trace ctxs handles].
    erewrite bind_Done by (eapply store_vt_live; cbn [handles];
                           apply lookup_insert_eq).
    cbn [trace ctxs handles vt bus_ctx].
    rewrite insert_insert_eq, delete_insert_eq. unfold ret.
    rewrite <- !app_assoc. cbn [app].
    destruct (Z.eqb_spec (env_remove_device env (trace w) (dev c)) ESP_OK)
      as [He | He]; cbn [negb]; [rewrite He|]; reflexivity.
Qed.

(* ------------------------------------------------------------------ *)
(** ** Bind and unbind keep the handle well-formed *)

Lemma handle_wf_same_memory (w w' : world) (d : ptr) :
  ctxs w' = ctxs w -> handles w' = handles w ->
  handle_wf w d -> handle_wf w' d.
Proof.
  intros Hc Hh (h & Hlive & Hok & Hctx).
  exists h. rewrite Hc, Hh. auto.
Qed.

Lemma bind_spi_keeps_wf (env : environment) (d : ptr) (host_ : Z)
    (cs_gpio dc_gpio_ rst_gpio_ : gpio_num_t) (clk_hz_ : Z) (w : world) :
  d <> NULL ->
  handle_wf w d ->
  exists (e : esp_err_t) (w' : world),
    ssd1306_bind_spi env d host_ cs_gpio dc_gpio_ rst_gpio_ clk_hz_ w =
    Done e w' /\ handle_wf w' d.
Proof.
  intros Hd Hwf.
  destruct (Z.eq_dec dc_gpio_ GPIO_NUM_NC) as [Hdc | Hdc].
  { exists ESP_ERR_INVALID_ARG, w. split; [|exact Hwf].
    unfold ssd1306_bind_spi.
    destruct (Z.eqb_spec d NULL) as [? | _]; [contradiction|].
    rewrite Hdc, Z.eqb_refl. reflexivity. }
  set (tr1 := bind_setup_trace w dc_gpio_ rst_gpio_).
  set (cfg := bind_devcfg cs_gpio clk_hz_).
  destruct (env_add_device env tr1 host_ cfg) as [e dev_] eqn:Hadd.
  destruct (Z.eq_dec e ESP_OK) as [-> | He].
  - destruct (Z.eq_dec
                (env_calloc env (tr1 ++ [EvSpiBusAddDevice host_ cfg
                                           ESP_OK dev_])) NULL)
      as [Hnull | Hp].
    + do 2 eexists. split.
      * apply (bind_spi_calloc_fails env d host_ cs_gpio dc_gpio_ rst_gpio_
                 clk_hz_ w Hd Hdc dev_ Hadd Hnull).
      * eapply handle_wf_same_memory; [| |exact Hwf]; reflexivity.
    + destruct Hwf as (h0 & Hlive & _ & _).
      do 2 eexists. split.
      * apply (bind_spi_succeeds env d host_ cs_gpio dc_gpio_ rst_gpio_
                 clk_hz_ w Hd Hdc h0 dev_ _ Hlive Hadd eq_refl Hp).
      * eexists. cbn [handles ctxs]. split; [apply lookup_insert_eq|].
        cbn [vt bus_ctx]. split.
        -- right. split; [discriminate | exact Hp].
        -- intros _. rewrite lookup_insert_eq. eauto.
  - do 2 eexists. split.
    + apply (bind_spi_add_device_fails env d host_ cs_gpio dc_gpio_ rst_gpio_
               clk_hz_ w Hd Hdc).
      fold tr1 cfg. rewrite Hadd. exact He.
    + eapply handle_wf_same_memory; [| |exact Hwf]; reflexivity.
Qed.

Lemma unbind_spi_keeps_wf (env : environment) (d : ptr) (w : world) :
  d <> NULL ->
  handle_wf w d ->
  exists (e : esp_err_t) (w' : world),
    ssd1306_unbind_spi env d w = Done e w' /\ handle_wf w' d.
Proof.
  intros Hd Hwf.
  pose proof Hwf as (h & Hlive & Hok & Hctx).
  destruct (Z.eq_dec (bus_ctx h) NULL) as [Hnull | Hp].
  - exists ESP_OK, w. split; [|exact Hwf].
    unfold ssd1306_unbind_spi.
    destruct (Z.eqb_spec d NULL) as [? | _]; [contradiction|].
    run_step. rewrite Hnull, Z.eqb_refl. reflexivity.
  - destruct (Hctx Hp) as [c Hc].
    do 2 eexists. split.
    + apply (unbind_spi_bound env d h c w Hd Hlive Hp Hc).
    + eexists. cbn [handles ctxs]. split; [apply lookup_insert_eq|].
      cbn [vt bus_ctx]. split.
      * left. split; reflexivity.
      * intros Hne. contradiction.
Qed.

(* ------------------------------------------------------------------ *)
(** ** The chunking loop *)

Lemma spi_send_loop_unfold (env : environment) (MAX dc_bit : Z) (fuel : nat)
    (ctx : ptr) (buf : list byte) (n off : Z) :
  spi_send_loop env MAX dc_bit (S fuel) ctx buf n off =
  if off <? n then
    let blk := if size_sub n off >? MAX then MAX else size_sub n off in
    let* chunk := read_bytes buf off blk in
    let t := mk_transaction (to_uint32 (blk * 8)) chunk
                            (pack_user ctx dc_bit) in
    let* c := load_ctx ctx in
    let* e := spi_device_polling_transmit env (dev c) t in
    if negb (e =? ESP_OK) then ret e else
    spi_send_loop env MAX dc_bit fuel ctx buf n (size_add off blk)
  else ret ESP_OK.
Proof. reflexivity. Qed.

Lemma spi_send_loop_done (env : environment) (MAX dc_bit : Z) (fuel : nat)
    (ctx : ptr) (buf : list byte) (n off : Z) (w : world) :
  n <= off ->
  spi_send_loop env MAX dc_bit fuel ctx buf n off w = Done ESP_OK w.
Proof.
  intros H. destruct fuel; cbn [spi_send_loop];
    destruct (Z.ltb_spec off n); try lia; reflexivity.
Qed.

Lemma block_size (MAX n off : Z) :
  0 < MAX -> 0 <= off < n -> n < 2 ^ 32 ->
  exists blk,
    (if size_sub n off >? MAX then MAX else size_sub n off) = blk /\
    0 < blk <= MAX /\ off + blk <= n /\ size_add off blk = off + blk.
Proof.
  intros HMAX Hoff Hn.
  assert (Hsub : size_sub n off = n - off).
  { unfold size_sub, to_size_t. apply Z.mod_small. lia. }
  rewrite Hsub, Z.gtb_ltb.
  destruct (Z.ltb_spec MAX (n - off)).
  - exists MAX. repeat split; try lia.
    unfold size_add, to_size_t. apply Z.mod_small. lia.
  - exists (n - off). repeat split; try lia.
    unfold size_add, to_size_t. apply Z.mod_small. lia.
Qed.

Lemma read_bytes_in_range (buf : list byte) (off blk : Z) (w : world) :
  0 <= off -> 0 <= blk -> off + blk <= Z.of_nat (length buf) ->
  read_bytes buf off blk w =
  Done (take (Z.to_nat blk) (drop (Z.to_nat off) buf)) w /\
  Z.of_nat (length (take (Z.to_nat blk) (drop (Z.to_nat off) buf))) = blk.
Proof.
  intros Hoff Hblk Hlen. split.
  - unfold read_bytes.
    replace (0 <=? off) with true by (symmetry; apply Z.leb_le; lia).
    replace (0 <=? blk) with true by (symmetry; apply Z.leb_le; lia).
    replace (off + blk <=? Z.of_nat (length buf)) with true
      by (symmetry; apply Z.leb_le; lia).
    reflexivity.
  - rewrite length_take, length_drop. lia.
Qed.

Lemma sent_bytes_cons (t : spi_transaction_t) (e : esp_err_t)
    (txs : list (spi_transaction_t * esp_err_t)) :
  sent_bytes ((t, e) :: txs) = tx_buffer t ++ sent_bytes txs.
Proof. reflexivity. Qed.

Section ChunkLoop.

Variable env : environment.
Variables MAX dc_bit : Z.
Variable ctx : ptr.
Variable c : ssd1306_spi_ctx_t.
Variable buf : list byte.

Hypothesis MAX_pos : 0 < MAX.
Hypothesis MAX_bits : 8 * MAX < 2 ^ 32.
Hypothesis buf_size : Z.of_nat (length buf) < 2 ^ 32.
Hypothesis dc_recovered : unpack_dc (pack_user ctx dc_bit) = dc_bit.

Local Abbreviation n := (Z.of_nat (length buf)).

Lemma spi_send_loop_spec (fuel : nat) :
  forall (off : Z) (w : world),
    0 <= off <= n ->
    n - off <= Z.of_nat fuel ->
    ctxs w !! ctx = Some c ->
    exists (txs : list (spi_transaction_t * esp_err_t)) (e : esp_err_t),
      spi_send_loop env MAX dc_bit fuel ctx buf n off w =
      Done e (mk_world (trace w ++ transmit_events (dev c) txs)
                       (ctxs w) (handles w)) /\
      Forall (chunk_ok MAX dc_bit ctx) txs /\
      ((e = ESP_OK /\
        Forall (fun x => snd x = ESP_OK) txs /\
        sent_bytes txs = drop (Z.to_nat off) buf)
       \/
       (e <> ESP_OK /\
        exists txs' t rest,
          txs = txs' ++ [(t, e)] /\
          Forall (fun x => snd x = ESP_OK) txs' /\
          drop (Z.to_nat off) buf = sent_bytes txs ++ rest)).
Proof.
  induction fuel as [| fuel IH]; intros off w Hoff Hfuel Hlive.
  - exists [], ESP_OK. split; [|split].
    + rewrite spi_send_loop_done by lia.
      cbn [transmit_events map]. rewrite app_nil_r, world_eta. reflexivity.
    + constructor.
    + left. split; [reflexivity|]. split; [constructor|].
      cbn. symmetry. apply drop_ge. lia.
  - destruct (Z.ltb_spec off n) as [Hlt | Hge].
    2:{ exists [], ESP_OK. split; [|split].
        + rewrite spi_send_loop_done by lia.
          cbn [transmit_events map]. rewrite app_nil_r, world_eta.
          reflexivity.
        + constructor.
        + left. split; [reflexivity|]. split; [constructor|].
          cbn. symmetry. apply drop_ge. lia. }
    rewrite spi_send_loop_unfold.
    replace (off <? n) with true by (symmetry; apply Z.ltb_lt; exact Hlt).
    destruct (block_size MAX n off MAX_pos (conj (proj1 Hoff) Hlt) buf_size)
      as (blk & -> & Hblk & Hend & Hnext).
    cbv zeta.
    destruct (read_bytes_in_range buf off blk w) as [Hread Hchunk];
      [lia | lia | lia |].
    set (chunk := take (Z.to_nat blk) (drop (Z.to_nat off) buf)) in *.
    rewrite (bind_Done _ _ _ _ _ Hread).
    rewrite (bind_Done _ _ _ _ _ (load_ctx_live _ _ _ Hlive)).
    set (t := mk_transaction (to_uint32 (blk * 8)) chunk
                             (pack_user ctx dc_bit)).
    assert (Ht : chunk_ok MAX dc_bit ctx (t, env_polling_transmit env
                                               (trace w) (dev c) t)).
    { unfold chunk_ok. cbn [fst t_length tx_buffer user t].
      rewrite Hchunk. repeat split; try lia; try assumption.
      unfold to_uint32. rewrite Z.mod_small by lia. lia. }
    erewrite bind_Done by reflexivity.
    set (e := env_polling_transmit env (trace w) (dev c) t) in *.
    assert (Hsplit : drop (Z.to_nat off) buf =
                     chunk ++ drop (Z.to_nat (off + blk)) buf).
    { unfold chunk. rewrite Z2Nat.inj_add by lia.
      rewrite <- drop_drop. symmetry. apply take_drop. }
    destruct (Z.eqb_spec e ESP_OK) as [He | He]; cbn [negb].
    + rewrite Hnext.
      destruct (IH (off + blk)
                  (mk_world (trace w ++ [EvSpiPollingTransmit (dev c) t e])
                            (ctxs w) (handles w)))
        as (txs & e2 & Hrun & Hchunks & Hres);
        [lia | lia | exact Hlive |].
      exists ((t, e) :: txs), e2. split; [|split].
      * rewrite Hrun. cbn [trace ctxs handles transmit_events map fst snd].
        rewrite <- app_assoc. reflexivity.
      * constructor; assumption.
      * destruct Hres as [(-> & Hall & Hsent) |
                          (Hne & txs' & t' & rest & -> & Hall & Hrest)].
        -- left. split; [reflexivity|]. split.
           ++ constructor; [exact He | exact Hall].
           ++ rewrite sent_bytes_cons, Hsent. cbn [tx_buffer t].
              symmetry. exact Hsplit.
        -- right. split; [exact Hne|].
           exists ((t, e) :: txs'), t', rest. split; [reflexivity|]. split.
           ++ constructor; [exact He | exact Hall].
           ++ rewrite Hsplit, Hrest, (app_assoc chunk). reflexivity.
    + exists [(t, e)], e. split; [|split].
      * reflexivity.
      * constructor; [exact Ht | constructor].
      * right. split; [exact He|].
        exists [], t, (drop (Z.to_nat (off + blk)) buf).
        split; [reflexivity|]. split; [constructor|].
        rewrite Hsplit. unfold sent_bytes. cbn [map concat fst tx_buffer t].
        rewrite app_nil_r. reflexivity.
Qed.

End ChunkLoop.

Lemma spi_send_chunked (env : environment) (MAX dc_bit : Z) (ctx : ptr)
    (c : ssd1306_spi_ctx_t) (payload : list byte) (w : world) :
  0 < MAX -> 8 * MAX < 2 ^ 32 ->
  Z.of_nat (length payload) < 2 ^ 32 ->
  unpack_dc (pack_user ctx dc_bit) = dc_bit ->
  ctxs w !! ctx = Some c ->
  chunked_transfer MAX dc_bit ctx c payload w
    (spi_send_loop env MAX dc_bit (Z.to_nat (Z.of_nat (length payload)))
       ctx payload (Z.of_nat (length payload)) 0 w).
Proof.
  intros HMAX Hbits Hsize Hdc Hlive.
  destruct (spi_send_loop_spec env MAX dc_bit ctx c payload HMAX Hbits Hsize
              Hdc (Z.to_nat (Z.of_nat (length payload))) 0 w)
    as (txs & e & Hrun & Hchunks & Hres); [lia | lia | exact Hlive |].
  exists txs, e. split; [exact Hrun|]. split; [exact Hchunks|].
  exact Hres.
Qed.

(* ------------------------------------------------------------------ *)
(** ** Further facts about bind and unbind *)

Lemma unbind_spi_unbound (env : environment) (d : ptr) (h : ssd1306_t)
    (w : world) :
  handles w !! d = Some h -> bus_ctx h = NULL ->
  ssd1306_unbind_spi env d w = Done ESP_OK w.
Proof.
  intros Hh Hnull. unfold ssd1306_unbind_spi.
  destruct (d =? NULL); [reflexivity|].
  run_step. rewrite Hnull, Z.eqb_refl. reflexivity.
Qed.

Lemma unbind_spi_null (env : environment) (w : world) :
  ssd1306_unbind_spi env NULL w = Done ESP_OK w.
Proof. reflexivity. Qed.

Lemma bind_spi_null_or_nc (env : environment) (d : ptr) (host_ : Z)
    (cs_gpio dc_gpio_ rst_gpio_ : gpio_num_t) (clk_hz_ : Z) (w : world) :
  d = NULL \/ dc_gpio_ = GPIO_NUM_NC ->
  ssd1306_bind_spi env d host_ cs_gpio dc_gpio_ rst_gpio_ clk_hz_ w =
  Done ESP_ERR_INVALID_ARG w.
Proof.
  intros H. unfold ssd1306_bind_spi.
  destruct (Z.eqb_spec d NULL) as [Hd | Hd]; [reflexivity|].
  destruct H as [H | ->]; [contradiction|].
  rewrite Z.eqb_refl. reflexivity.
Qed.

(** Every way a bind on a live handle can end, with what it did to memory. *)
Lemma bind_spi_outcomes (env : environment) (d : ptr) (host_ : Z)
    (cs_gpio dc_gpio_ rst_gpio_ : gpio_num_t) (clk_hz_ : Z) (w : world)
    (h0 : ssd1306_t) :
  handles w !! d = Some h0 ->
  exists (e : esp_err_t) (w' : world),
    ssd1306_bind_spi env d host_ cs_gpio dc_gpio_ rst_gpio_ clk_hz_ w =
    Done e w' /\
    ((e <> ESP_OK /\ ctxs w' = ctxs w /\ handles w' = handles w) \/
     (e = ESP_OK /\ d <> NULL /\ dc_gpio_ <> GPIO_NUM_NC /\
      exists (p : ptr) (dev_ : Z),
        p <> NULL /\
        ctxs w' = <[p := mk_ctx dev_ host_ dc_gpio_ rst_gpio_
                            (clock_speed_hz (bind_devcfg cs_gpio clk_hz_))]>
                    (ctxs w) /\
        handles w' = <[d := mk_handle (Some VT_SPI) p]> (handles w))).
Proof.
  intros Hlive.
  destruct (Z.eq_dec d NULL) as [Hd | Hd].
  { exists ESP_ERR_INVALID_ARG, w. split.
    - apply bind_spi_null_or_nc. left. exact Hd.
    - left. repeat split. discriminate. }
  destruct (Z.eq_dec dc_gpio_ GPIO_NUM_NC) as [Hdc | Hdc].
  { exists ESP_ERR_INVALID_ARG, w. split.
    - apply bind_spi_null_or_nc. right. exact Hdc.
    - left. repeat split. discriminate. }
  set (tr1 := bind_setup_trace w dc_gpio_ rst_gpio_).
  set (cfg := bind_devcfg cs_gpio clk_hz_).
  destruct (env_add_device env tr1 host_ cfg) as [e dev_] eqn:Hadd.
  destruct (Z.eq_dec e ESP_OK) as [-> | He].
  - destruct (Z.eq_dec
                (env_calloc env (tr1 ++ [EvSpiBusAddDevice host_ cfg
                                           ESP_OK dev_])) NULL)
      as [Hnull | Hp].
    + do 2 eexists. split.
      * apply (bind_spi_calloc_fails env d host_ cs_gpio dc_gpio_ rst_gpio_
                 clk_hz_ w Hd Hdc dev_ Hadd Hnull).
      * left. repeat split. discriminate.
    + do 2 eexists. split.
      * apply (bind_spi_succeeds env d host_ cs_gpio dc_gpio_ rst_gpio_
                 clk_hz_ w Hd Hdc h0 dev_ _ Hlive Hadd eq_refl Hp).
      * right. split; [reflexivity|]. split; [exact Hd|].
        split; [exact Hdc|]. do 2 eexists. split; [exact Hp|].
        split; reflexivity.
  - do 2 eexists. split.
    + apply (bind_spi_add_device_fails env d host_ cs_gpio dc_gpio_ rst_gpio_
               clk_hz_ w Hd Hdc).
      fold tr1 cfg. rewrite Hadd. exact He.
    + left. fold tr1 cfg. rewrite Hadd. repeat split. exact He.
Qed.

Ltac count_events :=
  unfold remove_device_calls, free_calls; cbn [trace];
  unfold bind_setup_trace, gpio_conf_output_events,
    gpio_conf_disable_events, bind_pulse_events;
  repeat match goal with
         | |- context [if ?b then _ else _] => destruct b
         end;
  rewrite ?List.filter_app, ?length_app; cbn; lia.

(** One call on [d] keeps [d] well-formed and every other handle as it
    was. *)
Lemma run_call_frame (env : environment) (d : ptr) (c : api_call)
    (w : world) :
  d <> NULL ->
  handle_wf w d ->
  exists (e : esp_err_t) (w' : world),
    run_call env d c w = Done e w' /\
    handle_wf w' d /\
    forall d' : ptr, d' <> d -> handles w' !! d' = handles w !! d'.
Proof.
  intros Hd Hwf.
  destruct c as [host_ cs_gpio dc_gpio_ rst_gpio_ clk_hz_ |]; cbn [run_call].
  - destruct (bind_spi_keeps_wf env d host_ cs_gpio dc_gpio_ rst_gpio_
                clk_hz_ w Hd Hwf) as (e & w' & Hrun & Hwf').
    exists e, w'. split; [exact Hrun|]. split; [exact Hwf'|].
    destruct Hwf as (h0 & Hlive & _ & _).
    destruct (bind_spi_outcomes env d host_ cs_gpio dc_gpio_ rst_gpio_
                clk_hz_ w h0 Hlive) as (e2 & w2 & Hrun2 & Hcases).
    rewrite Hrun in Hrun2. injection Hrun2 as <- <-.
    intros d' Hne.
    destruct Hcases as [(_ & _ & ->) | (_ & _ & _ & p & dev_ & _ & _ & ->)].
    + reflexivity.
    + apply lookup_insert_ne. congruence.
  - pose proof Hwf as (h & Hlive & Hok & Hctx).
    destruct (Z.eq_dec (bus_ctx h) NULL) as [Hnull | Hp].
    + exists ESP_OK, w. split; [|split; [exact Hwf | reflexivity]].
      apply (unbind_spi_unbound env d h w Hlive Hnull).
    + destruct (Hctx Hp) as [c Hc].
      do 2 eexists. split; [|split].
      * apply (unbind_spi_bound env d h c w Hd Hlive Hp Hc).
      * eexists. cbn [handles ctxs]. split; [apply lookup_insert_eq|].
        cbn [vt bus_ctx]. split.
        -- left. split; reflexivity.
        -- intros Hne. contradiction.
      * intros d' Hne. cbn [handles]. apply lookup_insert_ne. congruence.
Qed.

(* ------------------------------------------------------------------ *)
(** ** The shape of a chunked run *)

Lemma block_size_cases (MAX n off : Z) :
  0 < MAX -> 0 <= off < n -> n < 2 ^ 32 ->
  exists blk,
    (if size_sub n off >? MAX then MAX else size_sub n off) = blk /\
    0 < blk <= MAX /\ off + blk <= n /\ size_add off blk = off + blk /\
    (blk = MAX \/ off + blk = n).
Proof.
  intros HMAX Hoff Hn.
  assert (Hsub : size_sub n off = n - off).
  { unfold size_sub, to_size_t. apply Z.mod_small. lia. }
  rewrite Hsub, Z.gtb_ltb.
  destruct (Z.ltb_spec MAX (n - off)).
  - exists MAX. repeat split; try lia.
    unfold size_add, to_size_t. apply Z.mod_small. lia.
  - exists (n - off). repeat split; try lia.
    unfold size_add, to_size_t. apply Z.mod_small. lia.
Qed.

Lemma ceil_div_last (MAX r : Z) :
  0 < MAX -> 0 < r <= MAX -> (r + MAX - 1) / MAX = 1.
Proof.
  intros HMAX Hr. symmetry.
  apply (Z.div_unique (r + MAX - 1) MAX 1 (r - 1)); lia.
Qed.

Lemma ceil_div_step (MAX r : Z) :
  0 < MAX -> (r + MAX - 1) / MAX = 1 + (r - MAX + MAX - 1) / MAX.
Proof.
  intros HMAX.
  replace (r + MAX - 1) with ((r - MAX + MAX - 1) + 1 * MAX) by lia.
  rewrite Z.div_add by lia. lia.
Qed.

Section ChunkShape.

Variable env : environment.
Variables MAX dc_bit : Z.
Variable ctx : ptr.
Variable c : ssd1306_spi_ctx_t.
Variable buf : list byte.

Hypothesis MAX_pos : 0 < MAX.
Hypothesis buf_size : Z.of_nat (length buf) < 2 ^ 32.

Local Abbreviation n := (Z.of_nat (length buf)).

Lemma spi_send_loop_shape (fuel : nat) :
  forall (off : Z) (w : world),
    0 <= off <= n ->
    n - off <= Z.of_nat fuel ->
    ctxs w !! ctx = Some c ->
    exists (txs : list (spi_transaction_t * esp_err_t)) (e : esp_err_t),
      spi_send_loop env MAX dc_bit fuel ctx buf n off w =
      Done e (mk_world (trace w ++ transmit_events (dev c) txs)
                       (ctxs w) (handles w)) /\
      (n <= off -> txs = []) /\
      (forall (i : nat) (x : spi_transaction_t * esp_err_t),
          (S i < length txs)%nat ->
          txs !! i = Some x ->
          Z.of_nat (length (tx_buffer (fst x))) = MAX) /\
      (e = ESP_OK ->
       Z.of_nat (length txs) = (n - off + MAX - 1) / MAX).
Proof.
  assert (Hstop : forall fuel' off w,
             0 <= off <= n -> n <= off ->
             exists txs e,
               spi_send_loop env MAX dc_bit fuel' ctx buf n off w =
               Done e (mk_world (trace w ++ transmit_events (dev c) txs)
                                (ctxs w) (handles w)) /\
               (n <= off -> txs = []) /\
               (forall (i : nat) (x : spi_transaction_t * esp_err_t),
                   (S i < length txs)%nat ->
                   txs !! i = Some x ->
                   Z.of_nat (length (tx_buffer (fst x))) = MAX) /\
               (e = ESP_OK ->
                Z.of_nat (length txs) = (n - off + MAX - 1) / MAX)).
  { intros fuel' off w Hoff Hge. exists [], ESP_OK.
    split; [|split; [|split]].
    - rewrite spi_send_loop_done by lia.
      cbn [transmit_events map]. rewrite app_nil_r, world_eta. reflexivity.
    - reflexivity.
    - intros i x Hi. cbn in Hi. lia.
    - intros _. replace (n - off) with 0 by lia.
      cbn [length]. rewrite Z.div_small by lia. reflexivity. }
  induction fuel as [| fuel IH]; intros off w Hoff Hfuel Hlive.
  - apply Hstop; lia.
  - destruct (Z.ltb_spec off n) as [Hlt | Hge]; [|apply Hstop; lia].
    rewrite spi_send_loop_unfold.
    replace (off <? n) with true by (symmetry; apply Z.ltb_lt; exact Hlt).
    destruct (block_size_cases MAX n off MAX_pos (conj (proj1 Hoff) Hlt)
                buf_size)
      as (blk & -> & Hblk & Hend & Hnext & Hfull).
    cbv zeta.
    destruct (read_bytes_in_range buf off blk w) as [Hread Hchunk];
      [lia | lia | lia |].
    set (chunk := take (Z.to_nat blk) (drop (Z.to_nat off) buf)) in *.
    rewrite (bind_Done _ _ _ _ _ Hread).
    rewrite (bind_Done _ _ _ _ _ (load_ctx_live _ _ _ Hlive)).
    set (t := mk_transaction (to_uint32 (blk * 8)) chunk
                             (pack_user ctx dc_bit)).
    erewrite bind_Done by reflexivity.
    set (e := env_polling_transmit env (trace w) (dev c) t) in *.
    destruct (Z.eqb_spec e ESP_OK) as [He | He]; cbn [negb].
    + rewrite Hnext.
      destruct (IH (off + blk)
                  (mk_world (trace w ++ [EvSpiPollingTransmit (dev c) t e])
                            (ctxs w) (handles w)))
        as (txs & e2 & Hrun & Hnil & Hsizes & Hcount);
        [lia | lia | exact Hlive |].
      exists ((t, e) :: txs), e2. split; [|split; [|split]].
      * rewrite Hrun. cbn [trace ctxs handles transmit_events map fst snd].
        rewrite <- app_assoc. reflexivity.
      * intros Hstopped. lia.
      * intros i x Hi Hx. destruct i as [| i].
        -- injection Hx as <-. cbn [fst tx_buffer t]. rewrite Hchunk.
           destruct Hfull as [-> | Hlast]; [reflexivity|].
           rewrite Hnil in Hi by lia. cbn in Hi. lia.
        -- apply (Hsizes i x); [cbn [length] in Hi; lia | exact Hx].
      * intros Hok. cbn [length]. rewrite Nat2Z.inj_succ.
        destruct Hfull as [-> | Hlast].
        -- rewrite (Hcount Hok), (ceil_div_step MAX (n - off)) by lia.
           replace (n - (off + MAX) + MAX - 1) with (n - off - MAX + MAX - 1)
             by lia.
           lia.
        -- rewrite Hnil by lia. cbn [length].
           rewrite (ceil_div_last MAX (n - off)) by lia. reflexivity.
    + exists [(t, e)], e. split; [|split; [|split]].
      * reflexivity.
      * intros Hstopped. lia.
      * intros i x Hi. cbn in Hi. lia.
      * intros Hok. contradiction.
Qed.

(** A payload that fits one chunk goes out in one transaction. *)
Lemma spi_send_loop_single (w : world) :
  0 < n <= MAX ->
  8 * MAX < 2 ^ 32 ->
  ctxs w !! ctx = Some c ->
  spi_send_loop env MAX dc_bit (Z.to_nat n) ctx buf n 0 w =
  Done (env_polling_transmit env (trace w) (dev c)
          (mk_transaction (8 * n) buf (pack_user ctx dc_bit)))
       (mk_world
          (trace w ++
           [EvSpiPollingTransmit (dev c)
              (mk_transaction (8 * n) buf (pack_user ctx dc_bit))
              (env_polling_transmit env (trace w) (dev c)
                 (mk_transaction (8 * n) buf (pack_user ctx dc_bit)))])
          (ctxs w) (handles w)).
Proof.
  intros Hn Hbits Hlive.
  destruct (Z.to_nat n) as [| fuel] eqn:Hfuel; [lia|].
  rewrite spi_send_loop_unfold.
  replace (0 <? n) with true by (symmetry; apply Z.ltb_lt; lia).
  destruct (block_size_cases MAX n 0 MAX_pos ltac:(lia) buf_size)
    as (blk & -> & Hblk & Hend & Hnext & Hfull).
  assert (Hblkn : blk = n) by lia. subst blk.
  cbv zeta.
  destruct (read_bytes_in_range buf 0 n w) as [Hread _]; [lia | lia | lia |].
  rewrite (bind_Done _ _ _ _ _ Hread).
  rewrite (bind_Done _ _ _ _ _ (load_ctx_live _ _ _ Hlive)).
  change (Z.to_nat 0) with 0%nat. rewrite drop_0.
  rewrite Nat2Z.id, firstn_all.
  replace (to_uint32 (n * 8)) with (8 * n)
    by (unfold to_uint32; rewrite Z.mod_small by lia; lia).
  erewrite bind_Done by reflexivity.
  destruct (Z.eqb_spec
              (env_polling_transmit env (trace w) (dev c)
                 (mk_transaction (8 * n) buf (pack_user ctx dc_bit)))
              ESP_OK) as [He | He]; cbn [negb].
  - rewrite spi_send_loop_done by lia. rewrite He. reflexivity.
  - reflexivity.
Qed.

End ChunkShape.

Lemma spi_pre_cb_set_dc_packed (ctx dc : Z) (c : ssd1306_spi_ctx_t)
    (t : spi_transaction_t) (w : world) :
  0 <= ctx < 2 ^ uintptr_bits ->
  Z.testbit ctx 0 = false ->
  user t = pack_user ctx dc ->
  ctxs w !! ctx = Some c ->
  dc_gpio c <> GPIO_NUM_NC ->
  spi_pre_cb_set_dc t w =
  Done tt (mk_world (trace w ++ [EvGpioSetLevel (dc_gpio c) (Z.land dc 1)])
                    (ctxs w) (handles w)).
Proof.
  intros Hrange Hlow Huser Hlive Hdc.
  unfold spi_pre_cb_set_dc. rewrite Huser.
  rewrite (unpack_ctx_pack_user ctx dc Hrange Hlow).
  rewrite (bind_Done _ _ _ _ _ (load_ctx_live _ _ _ Hlive)).
  rewrite (unpack_dc_pack_user ctx dc Hrange Hlow).
  destruct (Z.eqb_spec (dc_gpio c) GPIO_NUM_NC) as [? | _]; [contradiction|].
  reflexivity.
Qed.

Lemma spi_reset_run (ctx : ptr) (c : ssd1306_spi_ctx_t) (w : world) :
  ctx <> NULL ->
  ctxs w !! ctx = Some c ->
  spi_reset ctx w =
  Done ESP_OK
       (mk_world
          (trace w ++
           (if rst_gpio c =? GPIO_NUM_NC then []
            else [EvGpioSetLevel (rst_gpio c) 0; EvTaskDelayMs 10;
                  EvGpioSetLevel (rst_gpio c) 1; EvTaskDelayMs 10]))
          (ctxs w) (handles w)).
Proof.
  intros Hctx Hlive. unfold spi_reset.
  destruct (Z.eqb_spec ctx NULL) as [? | _]; [contradiction|].
  rewrite (bind_Done _ _ _ _ _ (load_ctx_live _ _ _ Hlive)).
  destruct (rst_gpio c =? GPIO_NUM_NC).
  - unfold ret. rewrite app_nil_r, world_eta. reflexivity.
  - unfold bind, gpio_set_level, vTaskDelay_ms, emit, ret.
    cbn [trace ctxs handles]. rewrite <- !app_assoc. reflexivity.
Qed.

(* ------------------------------------------------------------------ *)
(** ** The pin mask *)


(* ------------------------------------------------------------------ *)
(** ** Sending *)

(** C1: for a live, aligned context and a non-empty payload whose length is
    passed as [n], [spi_send_data] returns after a run of transactions on
    the context's device, each carrying between 1 and 1024 bytes of the
    payload, a bit length of eight times that, and the context packed with
    D/C = 1; [spi_send_cmd] does the same with at most 32 bytes and
    D/C = 0.  Either every transaction succeeded, the chunks in order add
    up to the payload and the call returns [ESP_OK]; or the last
    transaction of the run is the first that failed, its error code is
    what the call returns, and the chunks sent are a prefix of the
    payload. *)
Theorem spi_send_chunks (env : environment) (ctx : ptr)
    (c : ssd1306_spi_ctx_t) (payload : list byte) (w : world) :
  ctx <> NULL ->
  0 <= ctx < 2 ^ uintptr_bits ->
  Z.testbit ctx 0 = false ->
  ctxs w !! ctx = Some c ->
  payload <> [] ->
  Z.of_nat (length payload) < 2 ^ 32 ->
  chunked_transfer 1024 1 ctx c payload w
    (spi_send_data env ctx (Some payload) (Z.of_nat (length payload)) w) /\
  chunked_transfer 32 0 ctx c payload w
    (spi_send_cmd env ctx (Some payload) (Z.of_nat (length payload)) w).
Proof.
  intros Hctx Hrange Hlow Hlive Hne Hsize.
  assert (Hn : (ctx =? NULL) || (Z.of_nat (length payload) =? 0) = false).
  { destruct (Z.eqb_spec ctx NULL) as [? | _]; [contradiction|].
    destruct (Z.eqb_spec (Z.of_nat (length payload)) 0) as [H0 | _];
      [|reflexivity].
    destruct payload; [contradiction | discriminate]. }
  unfold spi_send_data, spi_send_cmd. rewrite Hn.
  split; apply spi_send_chunked; try assumption; try lia.
  - rewrite unpack_dc_pack_user by assumption. reflexivity.
  - rewrite unpack_dc_pack_user by assumption. reflexivity.
Qed.

Lemma spi_send_chunks_witness :
  chunked_transfer 1024 1 4096 (mk_ctx 77 1 4 6 8000000)
    (repeat x2a 70) w_bound
    (spi_send_data env_third_transfer_fails 4096 (Some (repeat x2a 70))
       (Z.of_nat (length (repeat x2a 70))) w_bound) /\
  chunked_transfer 32 0 4096 (mk_ctx 77 1 4 6 8000000)
    (repeat x2a 70) w_bound
    (spi_send_cmd env_third_transfer_fails 4096 (Some (repeat x2a 70))
       (Z.of_nat (length (repeat x2a 70))) w_bound).
Proof.
  apply (spi_send_chunks env_third_transfer_fails 4096
           (mk_ctx 77 1 4 6 8000000) (repeat x2a 70) w_bound).
  - discriminate.
  - unfold uintptr_bits. lia.
  - reflexivity.
  - reflexivity.
  - discriminate.
  - vm_compute. reflexivity.
Defined.

(** Seventy command bytes go out as 32 + 32 + 6. *)
Example spi_send_cmd_70_bytes :
  spi_send_cmd env_all_ok 4096 (Some (repeat x2a 70)) 70 w_bound =
  Done ESP_OK
       (mk_world
          [EvSpiPollingTransmit 77
             (mk_transaction 256 (repeat x2a 32) 4096) ESP_OK;
           EvSpiPollingTransmit 77
             (mk_transaction 256 (repeat x2a 32) 4096) ESP_OK;
           EvSpiPollingTransmit 77
             (mk_transaction 48 (repeat x2a 6) 4096) ESP_OK]
          (ctxs w_bound) (handles w_bound)).
Proof. vm_compute. reflexivity. Qed.

(** A hundred command bytes when the third transaction times out: the
    fourth chunk is never sent and the time-out is returned. *)
Example spi_send_cmd_third_fails :
  spi_send_cmd env_third_transfer_fails 4096 (Some (repeat x2a 100)) 100
               w_bound =
  Done 263
       (mk_world
          [EvSpiPollingTransmit 77
             (mk_transaction 256 (repeat x2a 32) 4096) ESP_OK;
           EvSpiPollingTransmit 77
             (mk_transaction 256 (repeat x2a 32) 4096) ESP_OK;
           EvSpiPollingTransmit 77
             (mk_transaction 256 (repeat x2a 32) 4096) 263]
          (ctxs w_bound) (handles w_bound)).
Proof. vm_compute. reflexivity. Qed.

(** 1500 data bytes go out as 1024 + 476, tagged with D/C = 1. *)
Example spi_send_data_1500_bytes :
  spi_send_data env_all_ok 4096 (Some (repeat x2a 1500)) 1500 w_bound =
  Done ESP_OK
       (mk_world
          [EvSpiPollingTransmit 77
             (mk_transaction 8192 (repeat x2a 1024) 4097) ESP_OK;
           EvSpiPollingTransmit 77
             (mk_transaction 3808 (repeat x2a 476) 4097) ESP_OK]
          (ctxs w_bound) (handles w_bound)).
Proof. vm_compute. reflexivity. Qed.

(** Bind, then unbind: the device is taken off the bus once and the handle
    is back to null/null. *)
Example bind_then_unbind :
  exists w' : world,
    run_calls env_all_ok 100 [CallBind 1 5 4 6 0; CallUnbind] w_unbound =
    Done [ESP_OK; ESP_OK] w' /\
    remove_device_calls (trace w') = 1%nat /\
    handles w' !! 100 = Some (mk_handle None NULL) /\
    ctxs w' = ∅.
Proof.
  eexists. split; [vm_compute; reflexivity|].
  split; [reflexivity|]. split; reflexivity.
Qed.

(* ------------------------------------------------------------------ *)
(** ** The packed [user] word *)

(** C9: for a context address that fits a pointer and has its lowest bit
    clear, and any D/C argument, unpacking what [pack_user] packed gives
    back the address and [dc & 1]; the pre-transfer callback run on a
    transaction carrying that word therefore reads the very context the
    sender packed and drives its D/C pin to [dc & 1]. *)
Theorem pack_user_roundtrip (ctx dc : Z) :
  0 <= ctx < 2 ^ uintptr_bits ->
  Z.testbit ctx 0 = false ->
  unpack_ctx (pack_user ctx dc) = ctx /\
  unpack_dc (pack_user ctx dc) = Z.land dc 1 /\
  forall (w : world) (c : ssd1306_spi_ctx_t) (len : Z) (buf : list byte),
    ctxs w !! ctx = Some c ->
    spi_pre_cb_set_dc (mk_transaction len buf (pack_user ctx dc)) w =
    Done tt (mk_world
               (trace w ++
                (if dc_gpio c =? GPIO_NUM_NC then []
                 else [EvGpioSetLevel (dc_gpio c) (Z.land dc 1)]))
               (ctxs w) (handles w)).
Proof.
  intros Hrange Hlow.
  pose proof (unpack_ctx_pack_user ctx dc Hrange Hlow) as Hctx.
  pose proof (unpack_dc_pack_user ctx dc Hrange Hlow) as Hdc.
  repeat split; try assumption.
  intros w c len buf Hlive.
  unfold spi_pre_cb_set_dc, bind, load_ctx. cbn [user].
  rewrite Hctx, Hlive, Hdc.
  destruct (dc_gpio c =? GPIO_NUM_NC); cbn [negb].
  - unfold ret. rewrite app_nil_r, world_eta. reflexivity.
  - reflexivity.
Qed.

Lemma pack_user_roundtrip_witness :
  unpack_ctx (pack_user 4096 3) = 4096 /\
  unpack_dc (pack_user 4096 3) = 1.
Proof.
  destruct (pack_user_roundtrip 4096 3) as (H1 & H2 & _).
  - unfold uintptr_bits. lia.
  - reflexivity.
  - split; [exact H1 | exact H2].
Defined.

(* ------------------------------------------------------------------ *)
(** ** Argument checks *)

(** C4: [spi_send_cmd] and [spi_send_data] called with a null context, a
    null payload pointer or a length of zero, and [spi_reset] called with a
    null context, return [ESP_OK] and leave the world as it was: no bus
    transaction, no other call. *)
Theorem spi_primitives_null_or_empty (env : environment) (ctx : ptr)
    (payload : option (list byte)) (n : Z) (w : world) :
  ctx = NULL \/ payload = None \/ n = 0 ->
  spi_send_cmd env ctx payload n w = Done ESP_OK w /\
  spi_send_data env ctx payload n w = Done ESP_OK w /\
  spi_reset NULL w = Done ESP_OK w.
Proof.
  intros H. unfold spi_send_cmd, spi_send_data, spi_reset.
  destruct payload as [buf|]; [|repeat split; reflexivity].
  assert (Hb : (ctx =? NULL) || (n =? 0) = true).
  { destruct H as [-> | [H | ->]]; [reflexivity | discriminate |].
    rewrite Z.eqb_refl. apply orb_true_r. }
  rewrite Hb. repeat split; reflexivity.
Qed.

Lemma spi_primitives_null_or_empty_witness :
  spi_send_cmd env_all_ok 4096 (Some []) 0 w_bound = Done ESP_OK w_bound /\
  spi_send_data env_all_ok 4096 (Some []) 0 w_bound = Done ESP_OK w_bound /\
  spi_reset NULL w_bound = Done ESP_OK w_bound.
Proof.
  apply (spi_primitives_null_or_empty env_all_ok 4096 (Some []) 0 w_bound).
  right. right. reflexivity.
Defined.

(** C6: a bind on a null handle, or without a D/C pin, returns
    [ESP_ERR_INVALID_ARG] and leaves the world as it was: nothing is
    registered on the bus and no handle is written. *)
Theorem bind_spi_invalid_arg (env : environment) (d : ptr) (host_ : Z)
    (cs_gpio dc_gpio_ rst_gpio_ : gpio_num_t) (clk_hz_ : Z) (w : world) :
  d = NULL \/ dc_gpio_ = GPIO_NUM_NC ->
  ssd1306_bind_spi env d host_ cs_gpio dc_gpio_ rst_gpio_ clk_hz_ w =
  Done ESP_ERR_INVALID_ARG w.
Proof.
  intros H. unfold ssd1306_bind_spi.
  destruct (Z.eqb_spec d NULL) as [Hd | Hd]; [reflexivity|].
  destruct H as [H | ->]; [contradiction|].
  rewrite Z.eqb_refl. reflexivity.
Qed.

Lemma bind_spi_invalid_arg_witness :
  ssd1306_bind_spi env_all_ok 100 1 5 GPIO_NUM_NC 6 8000000 w_unbound =
  Done ESP_ERR_INVALID_ARG w_unbound.
Proof.
  apply (bind_spi_invalid_arg env_all_ok 100 1 5 GPIO_NUM_NC 6 8000000
           w_unbound).
  right. reflexivity.
Defined.

(* ------------------------------------------------------------------ *)
(** ** Reset *)

(** C7: [spi_reset] on a live context with a reset pin drives the pin low,
    waits 10 ms, drives it high, waits 10 ms and returns [ESP_OK]; without
    a reset pin it returns [ESP_OK] and does nothing at all. *)
Theorem spi_reset_pulse (ctx : ptr) (c : ssd1306_spi_ctx_t) (w : world) :
  ctx <> NULL ->
  ctxs w !! ctx = Some c ->
  (rst_gpio c <> GPIO_NUM_NC ->
   spi_reset ctx w =
   Done ESP_OK (mk_world (trace w ++ [EvGpioSetLevel (rst_gpio c) 0;
                                      EvTaskDelayMs 10;
                                      EvGpioSetLevel (rst_gpio c) 1;
                                      EvTaskDelayMs 10])
                         (ctxs w) (handles w))) /\
  (rst_gpio c = GPIO_NUM_NC -> spi_reset ctx w = Done ESP_OK w).
Proof.
  intros Hctx Hlive. unfold spi_reset.
  destruct (Z.eqb_spec ctx NULL) as [? | _]; [contradiction|].
  rewrite (bind_Done _ _ _ _ _ (load_ctx_live _ _ _ Hlive)).
  split; intros Hrst.
  - destruct (Z.eqb_spec (rst_gpio c) GPIO_NUM_NC) as [? | _];
      [contradiction|].
    unfold bind, gpio_set_level, vTaskDelay_ms, emit, ret.
    cbn [trace ctxs handles]. rewrite <- !app_assoc. reflexivity.
  - rewrite Hrst, Z.eqb_refl. reflexivity.
Qed.

Lemma spi_reset_pulse_witness :
  spi_reset 4096 w_bound =
  Done ESP_OK (mk_world [EvGpioSetLevel 6 0; EvTaskDelayMs 10;
                         EvGpioSetLevel 6 1; EvTaskDelayMs 10]
                        (ctxs w_bound) (handles w_bound)) /\
  spi_reset 4096 w_bound_no_rst = Done ESP_OK w_bound_no_rst.
Proof.
  split.
  - apply (spi_reset_pulse 4096 (mk_ctx 77 1 4 6 8000000) w_bound).
    + discriminate.
    + reflexivity.
    + discriminate.
  - apply (spi_reset_pulse 4096 (mk_ctx 77 1 4 GPIO_NUM_NC 8000000)
             w_bound_no_rst).
    + discriminate.
    + reflexivity.
    + reflexivity.
Defined.

(* ------------------------------------------------------------------ *)
(** ** Binding *)

(** C3: when the bus accepted the device and the allocation of the context
    then fails, the bind takes that device off the bus again, returns
    [ESP_ERR_NO_MEM], and writes neither a context nor the handle: the
    handle is exactly what it was, so an unbound handle stays unbound. *)
Theorem bind_spi_no_mem_rolls_back (env : environment) (d : ptr) (host_ : Z)
    (cs_gpio dc_gpio_ rst_gpio_ : gpio_num_t) (clk_hz_ : Z) (w : world)
    (dev_ : Z) :
  d <> NULL ->
  dc_gpio_ <> GPIO_NUM_NC ->
  env_add_device env (bind_setup_trace w dc_gpio_ rst_gpio_) host_
                 (bind_devcfg cs_gpio clk_hz_) = (ESP_OK, dev_) ->
  env_calloc env (bind_setup_trace w dc_gpio_ rst_gpio_ ++
                  [EvSpiBusAddDevice host_ (bind_devcfg cs_gpio clk_hz_)
                                     ESP_OK dev_]) = NULL ->
  exists e : esp_err_t,
    ssd1306_bind_spi env d host_ cs_gpio dc_gpio_ rst_gpio_ clk_hz_ w =
    Done ESP_ERR_NO_MEM
         (mk_world
            (bind_setup_trace w dc_gpio_ rst_gpio_ ++
             [EvSpiBusAddDevice host_ (bind_devcfg cs_gpio clk_hz_)
                                ESP_OK dev_;
              EvCalloc NULL;
              EvSpiBusRemoveDevice dev_ e])
            (ctxs w) (handles w)).
Proof.
  intros Hd Hdc Hadd Hcalloc.
  eexists. apply bind_spi_calloc_fails; assumption.
Qed.

Lemma bind_spi_no_mem_rolls_back_witness :
  exists e : esp_err_t,
    ssd1306_bind_spi env_no_mem 100 1 5 4 6 0 w_unbound =
    Done ESP_ERR_NO_MEM
         (mk_world
            (bind_setup_trace w_unbound 4 6 ++
             [EvSpiBusAddDevice 1 (bind_devcfg 5 0) ESP_OK 77;
              EvCalloc NULL;
              EvSpiBusRemoveDevice 77 e])
            (ctxs w_unbound) (handles w_unbound)).
Proof.
  apply (bind_spi_no_mem_rolls_back env_no_mem 100 1 5 4 6 0 w_unbound 77).
  - discriminate.
  - discriminate.
  - reflexivity.
  - reflexivity.
Defined.

(** C5: a bind that gets its device and its context and has a reset pin
    drives the pin high, waits 1 ms, drives it low, waits 1 ms, drives it
    high and waits 5 ms, and only then stores the vtable and the context
    into the handle; without a reset pin nothing happens between the
    allocation and the two stores.  Either way it returns [ESP_OK] and the
    handle ends up bound to [VT_SPI] and the new context. *)
Theorem bind_spi_reset_pulse_before_publish (env : environment) (d : ptr)
    (host_ : Z) (cs_gpio dc_gpio_ rst_gpio_ : gpio_num_t) (clk_hz_ : Z)
    (w : world) (h0 : ssd1306_t) (dev_ : Z) (p : ptr) :
  d <> NULL ->
  dc_gpio_ <> GPIO_NUM_NC ->
  handles w !! d = Some h0 ->
  env_add_device env (bind_setup_trace w dc_gpio_ rst_gpio_) host_
                 (bind_devcfg cs_gpio clk_hz_) = (ESP_OK, dev_) ->
  env_calloc env (bind_setup_trace w dc_gpio_ rst_gpio_ ++
                  [EvSpiBusAddDevice host_ (bind_devcfg cs_gpio clk_hz_)
                                     ESP_OK dev_]) = p ->
  p <> NULL ->
  exists w' : world,
    ssd1306_bind_spi env d host_ cs_gpio dc_gpio_ rst_gpio_ clk_hz_ w =
    Done ESP_OK w' /\
    trace w' =
      bind_setup_trace w dc_gpio_ rst_gpio_ ++
      [EvSpiBusAddDevice host_ (bind_devcfg cs_gpio clk_hz_) ESP_OK dev_;
       EvCalloc p] ++
      (if rst_gpio_ =? GPIO_NUM_NC then []
       else [EvGpioSetLevel rst_gpio_ 1; EvTaskDelayMs 1;
             EvGpioSetLevel rst_gpio_ 0; EvTaskDelayMs 1;
             EvGpioSetLevel rst_gpio_ 1; EvTaskDelayMs 5]) ++
      [EvStoreVt d (Some VT_SPI); EvStoreBusCtx d p] /\
    handles w' !! d = Some (mk_handle (Some VT_SPI) p).
Proof.
  intros Hd Hdc Hh Hadd Hcalloc Hp.
  eexists. split; [|split].
  - eapply bind_spi_succeeds; eassumption.
  - reflexivity.
  - cbn [handles]. apply lookup_insert_eq.
Qed.

Lemma bind_spi_reset_pulse_before_publish_witness :
  (exists w' : world,
     ssd1306_bind_spi env_all_ok 100 1 5 4 6 0 w_unbound = Done ESP_OK w' /\
     trace w' =
       bind_setup_trace w_unbound 4 6 ++
       [EvSpiBusAddDevice 1 (bind_devcfg 5 0) ESP_OK 77; EvCalloc 4096] ++
       [EvGpioSetLevel 6 1; EvTaskDelayMs 1;
        EvGpioSetLevel 6 0; EvTaskDelayMs 1;
        EvGpioSetLevel 6 1; EvTaskDelayMs 5] ++
       [EvStoreVt 100 (Some VT_SPI); EvStoreBusCtx 100 4096] /\
     handles w' !! 100 = Some (mk_handle (Some VT_SPI) 4096)) /\
  (exists w' : world,
     ssd1306_bind_spi env_all_ok 100 1 5 4 GPIO_NUM_NC 0 w_unbound =
     Done ESP_OK w' /\
     trace w' =
       bind_setup_trace w_unbound 4 GPIO_NUM_NC ++
       [EvSpiBusAddDevice 1 (bind_devcfg 5 0) ESP_OK 77; EvCalloc 4096] ++
       [] ++
       [EvStoreVt 100 (Some VT_SPI); EvStoreBusCtx 100 4096] /\
     handles w' !! 100 = Some (mk_handle (Some VT_SPI) 4096)).
Proof.
  split.
  - apply (bind_spi_reset_pulse_before_publish env_all_ok 100 1 5 4 6 0
             w_unbound (mk_handle None NULL) 77 4096).
    + discriminate.
    + discriminate.
    + reflexivity.
    + reflexivity.
    + reflexivity.
    + discriminate.
  - apply (bind_spi_reset_pulse_before_publish env_all_ok 100 1 5 4
             GPIO_NUM_NC 0 w_unbound (mk_handle None NULL) 77 4096).
    + discriminate.
    + discriminate.
    + reflexivity.
    + reflexivity.
    + reflexivity.
    + discriminate.
Defined.

(** C10: a clock argument of zero or less is not rejected.  The bind
    behaves, in every world and environment, exactly as if 8,000,000 had
    been passed; when it gets its device and its context it has registered
    the device with a clock of 8,000,000 Hz, recorded 8,000,000 in the
    context, and returns [ESP_OK]. *)
Theorem bind_spi_default_clock (env : environment) (d : ptr) (host_ : Z)
    (cs_gpio dc_gpio_ rst_gpio_ : gpio_num_t) (clk_hz_ : Z) (w : world) :
  clk_hz_ <= 0 ->
  ssd1306_bind_spi env d host_ cs_gpio dc_gpio_ rst_gpio_ clk_hz_ w =
  ssd1306_bind_spi env d host_ cs_gpio dc_gpio_ rst_gpio_ 8000000 w /\
  forall (h0 : ssd1306_t) (dev_ : Z) (p : ptr),
    d <> NULL ->
    dc_gpio_ <> GPIO_NUM_NC ->
    handles w !! d = Some h0 ->
    env_add_device env (bind_setup_trace w dc_gpio_ rst_gpio_) host_
      (mk_devcfg 8000000 0 cs_gpio 2 cb_spi_pre_cb_set_dc 0)
      = (ESP_OK, dev_) ->
    env_calloc env
      (bind_setup_trace w dc_gpio_ rst_gpio_ ++
       [EvSpiBusAddDevice host_
          (mk_devcfg 8000000 0 cs_gpio 2 cb_spi_pre_cb_set_dc 0)
          ESP_OK dev_]) = p ->
    p <> NULL ->
    exists w' : world,
      ssd1306_bind_spi env d host_ cs_gpio dc_gpio_ rst_gpio_ clk_hz_ w =
      Done ESP_OK w' /\
      In (EvSpiBusAddDevice host_
            (mk_devcfg 8000000 0 cs_gpio 2 cb_spi_pre_cb_set_dc 0)
            ESP_OK dev_) (trace w') /\
      ctxs w' !! p = Some (mk_ctx dev_ host_ dc_gpio_ rst_gpio_ 8000000).
Proof.
  intros Hclk.
  assert (Hleb : (clk_hz_ <=? 0) = true) by (apply Z.leb_le; exact Hclk).
  split.
  - unfold ssd1306_bind_spi. rewrite Hleb. reflexivity.
  - intros h0 dev_ p Hd Hdc Hh Hadd Hcalloc Hp.
    assert (Hcfg : bind_devcfg cs_gpio clk_hz_ =
                   mk_devcfg 8000000 0 cs_gpio 2 cb_spi_pre_cb_set_dc 0).
    { unfold bind_devcfg. rewrite Hleb. reflexivity. }
    eexists. split; [|split].
    + eapply bind_spi_succeeds; try eassumption;
        rewrite Hcfg; eassumption.
    + cbn [trace]. rewrite Hcfg.
      apply in_or_app. right. left. reflexivity.
    + cbn [ctxs]. rewrite Hcfg. cbn [clock_speed_hz].
      apply lookup_insert_eq.
Qed.

Lemma bind_spi_default_clock_witness :
  ssd1306_bind_spi env_all_ok 100 1 5 4 6 (-3) w_unbound =
  ssd1306_bind_spi env_all_ok 100 1 5 4 6 8000000 w_unbound /\
  exists w' : world,
    ssd1306_bind_spi env_all_ok 100 1 5 4 6 (-3) w_unbound = Done ESP_OK w' /\
    In (EvSpiBusAddDevice 1
          (mk_devcfg 8000000 0 5 2 cb_spi_pre_cb_set_dc 0) ESP_OK 77)
       (trace w') /\
    ctxs w' !! 4096 = Some (mk_ctx 77 1 4 6 8000000).
Proof.
  destruct (bind_spi_default_clock env_all_ok 100 1 5 4 6 (-3) w_unbound)
    as [Heq Hok].
  - lia.
  - split; [exact Heq|].
    apply (Hok (mk_handle None NULL) 77 4096).
    + discriminate.
    + discriminate.
    + reflexivity.
    + reflexivity.
    + reflexivity.
    + discriminate.
Defined.

(* ------------------------------------------------------------------ *)
(** ** Unbinding *)

(** C8: an unbind of a bound handle whose context holds a bus device takes
    that device off the bus, once; puts the D/C pin and the reset pin (each
    one that is connected) into the disabled mode; frees the context; and
    stores null into the handle's context pointer and vtable pointer.  It
    returns what the bus returned for the removal. *)
Theorem unbind_spi_releases_everything (env : environment) (d : ptr)
    (h : ssd1306_t) (c : ssd1306_spi_ctx_t) (w : world) :
  d <> NULL ->
  handles w !! d = Some h ->
  bus_ctx h <> NULL ->
  ctxs w !! bus_ctx h = Some c ->
  dev c <> NULL ->
  exists (e : esp_err_t) (w' : world),
    ssd1306_unbind_spi env d w = Done e w' /\
    e = env_remove_device env (trace w) (dev c) /\
    trace w' =
      trace w ++
      [EvSpiBusRemoveDevice (dev c) e] ++
      (if dc_gpio c =? GPIO_NUM_NC then []
       else [EvGpioConfig
               (mk_gpio_config (pin_mask (dc_gpio c)) GPIO_MODE_DISABLE
                  GPIO_PULLUP_DISABLE GPIO_PULLDOWN_DISABLE
                  GPIO_INTR_DISABLE)]) ++
      (if rst_gpio c =? GPIO_NUM_NC then []
       else [EvGpioConfig
               (mk_gpio_config (pin_mask (rst_gpio c)) GPIO_MODE_DISABLE
                  GPIO_PULLUP_DISABLE GPIO_PULLDOWN_DISABLE
                  GPIO_INTR_DISABLE)]) ++
      [EvFree (bus_ctx h); EvStoreBusCtx d NULL; EvStoreVt d None] /\
    remove_device_calls (trace w') = S (remove_device_calls (trace w)) /\
    ctxs w' !! bus_ctx h = None /\
    handles w' !! d = Some (mk_handle None NULL).
Proof.
  intros Hd Hh Hp Hc Hdev.
  pose proof (unbind_spi_bound env d h c w Hd Hh Hp Hc) as Hrun.
  destruct (Z.eqb_spec (dev c) NULL) as [? | _]; [contradiction|].
  do 2 eexists. split; [exact Hrun|].
  split; [reflexivity|]. split; [reflexivity|]. split; [|split].
  - cbn [trace]. unfold remove_device_calls, gpio_conf_disable_events.
    rewrite List.filter_app, length_app.
    destruct (dc_gpio c =? GPIO_NUM_NC), (rst_gpio c =? GPIO_NUM_NC);
      cbn; lia.
  - cbn [ctxs]. apply lookup_delete_eq.
  - cbn [handles]. apply lookup_insert_eq.
Qed.

Lemma unbind_spi_releases_everything_witness :
  exists (e : esp_err_t) (w' : world),
    ssd1306_unbind_spi env_all_ok 100 w_bound = Done e w' /\
    e = ESP_OK /\
    trace w' =
      [EvSpiBusRemoveDevice 77 e;
       EvGpioConfig (mk_gpio_config 16 GPIO_MODE_DISABLE GPIO_PULLUP_DISABLE
                       GPIO_PULLDOWN_DISABLE GPIO_INTR_DISABLE);
       EvGpioConfig (mk_gpio_config 64 GPIO_MODE_DISABLE GPIO_PULLUP_DISABLE
                       GPIO_PULLDOWN_DISABLE GPIO_INTR_DISABLE);
       EvFree 4096; EvStoreBusCtx 100 NULL; EvStoreVt 100 None] /\
    remove_device_calls (trace w') = 1%nat /\
    ctxs w' !! 4096 = None /\
    handles w' !! 100 = Some (mk_handle None NULL).
Proof.
  apply (unbind_spi_releases_everything env_all_ok 100
           (mk_handle (Some VT_SPI) 4096) (mk_ctx 77 1 4 6 8000000) w_bound).
  - discriminate.
  - reflexivity.
  - discriminate.
  - reflexivity.
  - discriminate.
Defined.

(* ------------------------------------------------------------------ *)
(** ** The handle is never left partially bound *)

(** C2: starting from a live handle that is not partially bound, any
    sequence of binds (with any arguments) and unbinds, in any environment
    (so with any of them failing), runs to its end and leaves the handle
    with vtable and context either both null or both non-null. *)
Theorem bind_unbind_never_partially_bound (env : environment) (d : ptr)
    (calls : list api_call) (w : world) :
  d <> NULL ->
  handle_wf w d ->
  exists (es : list esp_err_t) (w' : world),
    run_calls env d calls w = Done es w' /\
    length es = length calls /\
    exists h : ssd1306_t,
      handles w' !! d = Some h /\
      ((vt h = None /\ bus_ctx h = NULL) \/
       (vt h <> None /\ bus_ctx h <> NULL)).
Proof.
  intros Hd. revert w.
  induction calls as [| c calls IH]; intros w Hwf.
  - exists [], w. split; [reflexivity|]. split; [reflexivity|].
    destruct Hwf as (h & Hlive & Hok & _). exists h. split; assumption.
  - assert (Hstep : exists e w1, run_call env d c w = Done e w1 /\
                                 handle_wf w1 d).
    { destruct c as [host_ cs_gpio dc_gpio_ rst_gpio_ clk_hz_ |];
        cbn [run_call].
      - apply bind_spi_keeps_wf; assumption.
      - apply unbind_spi_keeps_wf; assumption. }
    destruct Hstep as (e & w1 & Hrun & Hwf1).
    destruct (IH w1 Hwf1) as (es & w' & Hrest & Hlen & Hfinal).
    exists (e :: es), w'. split; [|split].
    + cbn [run_calls].
      rewrite (bind_Done _ _ _ _ _ Hrun), (bind_Done _ _ _ _ _ Hrest).
      reflexivity.
    + cbn [length]. rewrite Hlen. reflexivity.
    + exact Hfinal.
Qed.

Lemma bind_unbind_never_partially_bound_witness :
  exists (es : list esp_err_t) (w' : world),
    run_calls env_no_mem 100
      [CallBind 1 5 4 6 0; CallUnbind; CallBind 1 5 GPIO_NUM_NC 6 0;
       CallUnbind] w_bound = Done es w' /\
    length es = 4%nat /\
    exists h : ssd1306_t,
      handles w' !! 100 = Some h /\
      ((vt h = None /\ bus_ctx h = NULL) \/
       (vt h <> None /\ bus_ctx h <> NULL)).
Proof.
  apply (bind_unbind_never_partially_bound env_no_mem 100
           [CallBind 1 5 4 6 0; CallUnbind; CallBind 1 5 GPIO_NUM_NC 6 0;
            CallUnbind] w_bound).
  - discriminate.
  - exists (mk_handle (Some VT_SPI) 4096).
    split; [reflexivity|]. split.
    + right. split; discriminate.
    + intros _. exists (mk_ctx 77 1 4 6 8000000). reflexivity.
Defined.

(* ------------------------------------------------------------------ *)
(** ** Further properties of bind *)

(** X1: when [spi_bus_add_device] fails, the bind returns the bus's error
    code; nothing is allocated, no device is removed, contexts and handles
    are untouched.  The D/C pin, and the reset pin when there is one, stay
    configured as outputs: the trace is the pin set-up followed by the
    failed registration, and nothing else. *)
Theorem bind_spi_bus_error (env : environment) (d : ptr) (host_ : Z)
    (cs_gpio dc_gpio_ rst_gpio_ : gpio_num_t) (clk_hz_ : Z) (w : world)
    (e : esp_err_t) (dev_ : Z) :
  d <> NULL ->
  dc_gpio_ <> GPIO_NUM_NC ->
  env_add_device env (bind_setup_trace w dc_gpio_ rst_gpio_) host_
                 (bind_devcfg cs_gpio clk_hz_) = (e, dev_) ->
  e <> ESP_OK ->
  ssd1306_bind_spi env d host_ cs_gpio dc_gpio_ rst_gpio_ clk_hz_ w =
  Done e
       (mk_world
          (trace w ++
           [EvGpioConfig (mk_gpio_config (pin_mask dc_gpio_) GPIO_MODE_OUTPUT
                            GPIO_PULLUP_DISABLE GPIO_PULLDOWN_DISABLE
                            GPIO_INTR_DISABLE);
            EvGpioSetLevel dc_gpio_ 0] ++
           (if rst_gpio_ =? GPIO_NUM_NC then []
            else [EvGpioConfig
                    (mk_gpio_config (pin_mask rst_gpio_) GPIO_MODE_OUTPUT
                       GPIO_PULLUP_DISABLE GPIO_PULLDOWN_DISABLE
                       GPIO_INTR_DISABLE);
                  EvGpioSetLevel rst_gpio_ 1]) ++
           [EvSpiBusAddDevice host_ (bind_devcfg cs_gpio clk_hz_) e dev_])
          (ctxs w) (handles w)).
Proof.
  intros Hd Hdc Hadd He.
  rewrite (bind_spi_add_device_fails env d host_ cs_gpio dc_gpio_ rst_gpio_
             clk_hz_ w Hd Hdc) by (rewrite Hadd; exact He).
  rewrite Hadd. cbn [fst snd].
  unfold bind_setup_trace, gpio_conf_output_events.
  destruct (Z.eqb_spec dc_gpio_ GPIO_NUM_NC) as [? | _]; [contradiction|].
  rewrite <- !app_assoc. reflexivity.
Qed.

Lemma bind_spi_bus_error_witness :
  ssd1306_bind_spi env_bus_refuses 100 1 5 4 GPIO_NUM_NC 0 w_unbound =
  Done 261
       (mk_world
          ([] ++
           [EvGpioConfig (mk_gpio_config (pin_mask 4) GPIO_MODE_OUTPUT
                            GPIO_PULLUP_DISABLE GPIO_PULLDOWN_DISABLE
                            GPIO_INTR_DISABLE);
            EvGpioSetLevel 4 0] ++
           [] ++
           [EvSpiBusAddDevice 1 (bind_devcfg 5 0) 261 0])
          (ctxs w_unbound) (handles w_unbound)).
Proof.
  apply (bind_spi_bus_error env_bus_refuses 100 1 5 4 GPIO_NUM_NC 0
           w_unbound 261 0).
  - discriminate.
  - discriminate.
  - reflexivity.
  - discriminate.
Defined.



(* ------------------------------------------------------------------ *)
(** ** Further properties of unbind *)

(** X3: an unbind of the null handle, or of a live handle whose context
    pointer is null, returns [ESP_OK] and does nothing: no bus call, no
    GPIO call, no free, no store. *)
Theorem unbind_spi_unbound_is_noop (env : environment) (d : ptr) (w : world) :
  d = NULL \/
  (exists h : ssd1306_t, handles w !! d = Some h /\ bus_ctx h = NULL) ->
  ssd1306_unbind_spi env d w = Done ESP_OK w.
Proof.
  intros [-> | (h & Hh & Hnull)].
  - apply unbind_spi_null.
  - apply (unbind_spi_unbound env d h w Hh Hnull).
Qed.

Lemma unbind_spi_unbound_is_noop_witness :
  ssd1306_unbind_spi env_all_ok 100 w_unbound = Done ESP_OK w_unbound.
Proof.
  apply (unbind_spi_unbound_is_noop env_all_ok 100 w_unbound).
  right. exists (mk_handle None NULL). split; reflexivity.
Defined.

(** X4: unbinding twice is safe.  After the unbind of a bound handle, a
    second unbind (in any environment) returns [ESP_OK] and changes
    nothing: the context is not freed again and no device is removed
    again. *)
Theorem unbind_spi_twice (env env2 : environment) (d : ptr) (h : ssd1306_t)
    (c : ssd1306_spi_ctx_t) (w : world) :
  d <> NULL ->
  handles w !! d = Some h ->
  bus_ctx h <> NULL ->
  ctxs w !! bus_ctx h = Some c ->
  exists (e : esp_err_t) (w' : world),
    ssd1306_unbind_spi env d w = Done e w' /\
    ssd1306_unbind_spi env2 d w' = Done ESP_OK w'.
Proof.
  intros Hd Hh Hp Hc.
  do 2 eexists. split.
  - apply (unbind_spi_bound env d h c w Hd Hh Hp Hc).
  - apply (unbind_spi_unbound env2 d (mk_handle None NULL)).
    + cbn [handles]. apply lookup_insert_eq.
    + reflexivity.
Qed.

Lemma unbind_spi_twice_witness :
  exists (e : esp_err_t) (w' : world),
    ssd1306_unbind_spi env_all_ok 100 w_bound = Done e w' /\
    ssd1306_unbind_spi env_no_mem 100 w' = Done ESP_OK w'.
Proof.
  apply (unbind_spi_twice env_all_ok env_no_mem 100
           (mk_handle (Some VT_SPI) 4096) (mk_ctx 77 1 4 6 8000000) w_bound).
  - discriminate.
  - reflexivity.
  - discriminate.
  - reflexivity.
Defined.

(** X5: when the context of a bound handle holds no bus device, the unbind
    makes no call to the bus and returns [ESP_OK]; it still disables the
    connected pins, frees the context and nulls the handle. *)
Theorem unbind_spi_without_device (env : environment) (d : ptr)
    (h : ssd1306_t) (c : ssd1306_spi_ctx_t) (w : world) :
  d <> NULL ->
  handles w !! d = Some h ->
  bus_ctx h <> NULL ->
  ctxs w !! bus_ctx h = Some c ->
  dev c = NULL ->
  exists w' : world,
    ssd1306_unbind_spi env d w = Done ESP_OK w' /\
    trace w' =
      trace w ++
      (if dc_gpio c =? GPIO_NUM_NC then []
       else [EvGpioConfig
               (mk_gpio_config (pin_mask (dc_gpio c)) GPIO_MODE_DISABLE
                  GPIO_PULLUP_DISABLE GPIO_PULLDOWN_DISABLE
                  GPIO_INTR_DISABLE)]) ++
      (if rst_gpio c =? GPIO_NUM_NC then []
       else [EvGpioConfig
               (mk_gpio_config (pin_mask (rst_gpio c)) GPIO_MODE_DISABLE
                  GPIO_PULLUP_DISABLE GPIO_PULLDOWN_DISABLE
                  GPIO_INTR_DISABLE)]) ++
      [EvFree (bus_ctx h); EvStoreBusCtx d NULL; EvStoreVt d None] /\
    remove_device_calls (trace w') = remove_device_calls (trace w) /\
    ctxs w' = delete (bus_ctx h) (ctxs w) /\
    handles w' !! d = Some (mk_handle None NULL).
Proof.
  intros Hd Hh Hp Hc Hdev.
  pose proof (unbind_spi_bound env d h c w Hd Hh Hp Hc) as Hrun.
  rewrite Hdev in Hrun. change (NULL =? NULL) with true in Hrun.
  eexists. split; [exact Hrun|].
  split; [reflexivity|]. split; [|split].
  - cbn [trace]. unfold remove_device_calls, gpio_conf_disable_events.
    rewrite List.filter_app, length_app.
    destruct (dc_gpio c =? GPIO_NUM_NC), (rst_gpio c =? GPIO_NUM_NC);
      cbn; lia.
  - reflexivity.
  - cbn [handles]. apply lookup_insert_eq.
Qed.

Lemma unbind_spi_without_device_witness :
  exists w' : world,
    ssd1306_unbind_spi env_all_ok 100 w_bound_no_dev = Done ESP_OK w' /\
    trace w' =
      [] ++
      [EvGpioConfig (mk_gpio_config (pin_mask 4) GPIO_MODE_DISABLE
                       GPIO_PULLUP_DISABLE GPIO_PULLDOWN_DISABLE
                       GPIO_INTR_DISABLE)] ++
      [EvGpioConfig (mk_gpio_config (pin_mask 6) GPIO_MODE_DISABLE
                       GPIO_PULLUP_DISABLE GPIO_PULLDOWN_DISABLE
                       GPIO_INTR_DISABLE)] ++
      [EvFree 4096; EvStoreBusCtx 100 NULL; EvStoreVt 100 None] /\
    remove_device_calls (trace w') = 0%nat /\
    ctxs w' = delete 4096 (ctxs w_bound_no_dev) /\
    handles w' !! 100 = Some (mk_handle None NULL).
Proof.
  apply (unbind_spi_without_device env_all_ok 100
           (mk_handle (Some VT_SPI) 4096) (mk_ctx NULL 1 4 6 8000000)
           w_bound_no_dev).
  - discriminate.
  - reflexivity.
  - discriminate.
  - reflexivity.
  - reflexivity.
Defined.

(* ------------------------------------------------------------------ *)
(** ** Bind and unbind together *)

(** X6: bind followed by unbind gives back what the bind took.  When the
    bus hands out a device and the allocator a fresh address, the pair of
    calls returns [ESP_OK] and then the result of the removal; afterwards
    the set of live contexts is what it was before the bind, the handle is
    null/null, the context was freed once, and the one device taken off the
    bus is the device the bus had handed out. *)
Theorem bind_then_unbind_restores (env : environment) (d : ptr) (host_ : Z)
    (cs_gpio dc_gpio_ rst_gpio_ : gpio_num_t) (clk_hz_ : Z) (w : world)
    (h0 : ssd1306_t) (dev_ : Z) (p : ptr) :
  d <> NULL ->
  dc_gpio_ <> GPIO_NUM_NC ->
  handles w !! d = Some h0 ->
  env_add_device env (bind_setup_trace w dc_gpio_ rst_gpio_) host_
                 (bind_devcfg cs_gpio clk_hz_) = (ESP_OK, dev_) ->
  dev_ <> NULL ->
  env_calloc env (bind_setup_trace w dc_gpio_ rst_gpio_ ++
                  [EvSpiBusAddDevice host_ (bind_devcfg cs_gpio clk_hz_)
                                     ESP_OK dev_]) = p ->
  p <> NULL ->
  ctxs w !! p = None ->
  exists (e : esp_err_t) (w' : world),
    run_calls env d
      [CallBind host_ cs_gpio dc_gpio_ rst_gpio_ clk_hz_; CallUnbind] w =
    Done [ESP_OK; e] w' /\
    ctxs w' = ctxs w /\
    handles w' = <[d := mk_handle None NULL]> (handles w) /\
    remove_device_calls (trace w') = S (remove_device_calls (trace w)) /\
    free_calls (trace w') = S (free_calls (trace w)) /\
    In (EvSpiBusRemoveDevice dev_ e) (trace w') /\
    In (EvFree p) (trace w').
Proof.
  intros Hd Hdc Hh Hadd Hdev Hcalloc Hp Hfresh.
  pose proof (bind_spi_succeeds env d host_ cs_gpio dc_gpio_ rst_gpio_
                clk_hz_ w Hd Hdc h0 dev_ p Hh Hadd Hcalloc Hp) as Hbind.
  set (c := mk_ctx dev_ host_ dc_gpio_ rst_gpio_
                   (clock_speed_hz (bind_devcfg cs_gpio clk_hz_))) in *.
  match type of Hbind with _ = Done _ ?x => set (w1 := x) in * end.
  assert (Hh1 : handles w1 !! d = Some (mk_handle (Some VT_SPI) p))
    by (cbn [w1 handles]; apply lookup_insert_eq).
  assert (Hc1 : ctxs w1 !! bus_ctx (mk_handle (Some VT_SPI) p) = Some c)
    by (cbn [w1 ctxs bus_ctx]; apply lookup_insert_eq).
  pose proof (unbind_spi_bound env d (mk_handle (Some VT_SPI) p) c w1
                Hd Hh1 Hp Hc1) as Hunbind.
  cbn [bus_ctx dev c dc_gpio rst_gpio] in Hunbind.
  destruct (Z.eqb_spec dev_ NULL) as [? | _]; [contradiction|].
  do 2 eexists. split; [|split; [|split; [|split; [|split; [|split]]]]].
  - cbn [run_calls run_call].
    rewrite (bind_Done _ _ _ _ _ Hbind).
    erewrite (bind_Done (bind (ssd1306_unbind_spi env d) _)); cycle 1.
    { rewrite (bind_Done _ _ _ _ _ Hunbind).
      erewrite bind_Done by reflexivity. reflexivity. }
    reflexivity.
  - cbn [ctxs w1]. apply delete_insert_id. exact Hfresh.
  - cbn [handles w1]. apply insert_insert_eq.
  - subst w1. count_events.
  - subst w1. count_events.
  - cbn [trace]. apply in_or_app. right. left. reflexivity.
  - cbn [trace]. apply in_or_app. right.
    apply in_or_app. right. apply in_or_app. right.
    apply in_or_app. right. left. reflexivity.
Qed.

Lemma bind_then_unbind_restores_witness :
  exists (e : esp_err_t) (w' : world),
    run_calls env_all_ok 100 [CallBind 1 5 4 6 0; CallUnbind] w_unbound =
    Done [ESP_OK; e] w' /\
    ctxs w' = ctxs w_unbound /\
    handles w' = <[100 := mk_handle None NULL]> (handles w_unbound) /\
    remove_device_calls (trace w') =
      S (remove_device_calls (trace w_unbound)) /\
    free_calls (trace w') = S (free_calls (trace w_unbound)) /\
    In (EvSpiBusRemoveDevice 77 e) (trace w') /\
    In (EvFree 4096) (trace w').
Proof.
  apply (bind_then_unbind_restores env_all_ok 100 1 5 4 6 0 w_unbound
           (mk_handle None NULL) 77 4096).
  - discriminate.
  - discriminate.
  - reflexivity.
  - reflexivity.
  - discriminate.
  - reflexivity.
  - discriminate.
  - reflexivity.
Defined.

(** X7: a bind does not look at what the handle already holds.  On a handle
    that is bound, a successful bind to a new context overwrites the
    handle; the old context stays allocated, is never freed, its device is
    never taken off the bus, and the handle no longer points to it. *)
Theorem bind_spi_rebind_leaks (env : environment) (d : ptr) (host_ : Z)
    (cs_gpio dc_gpio_ rst_gpio_ : gpio_num_t) (clk_hz_ : Z) (w : world)
    (h0 : ssd1306_t) (c0 : ssd1306_spi_ctx_t) (dev_ : Z) (p : ptr) :
  d <> NULL ->
  dc_gpio_ <> GPIO_NUM_NC ->
  handles w !! d = Some h0 ->
  bus_ctx h0 <> NULL ->
  ctxs w !! bus_ctx h0 = Some c0 ->
  env_add_device env (bind_setup_trace w dc_gpio_ rst_gpio_) host_
                 (bind_devcfg cs_gpio clk_hz_) = (ESP_OK, dev_) ->
  env_calloc env (bind_setup_trace w dc_gpio_ rst_gpio_ ++
                  [EvSpiBusAddDevice host_ (bind_devcfg cs_gpio clk_hz_)
                                     ESP_OK dev_]) = p ->
  p <> NULL ->
  p <> bus_ctx h0 ->
  exists w' : world,
    ssd1306_bind_spi env d host_ cs_gpio dc_gpio_ rst_gpio_ clk_hz_ w =
    Done ESP_OK w' /\
    handles w' !! d = Some (mk_handle (Some VT_SPI) p) /\
    ctxs w' !! bus_ctx h0 = Some c0 /\
    free_calls (trace w') = free_calls (trace w) /\
    remove_device_calls (trace w') = remove_device_calls (trace w).
Proof.
  intros Hd Hdc Hh Hp0 Hc0 Hadd Hcalloc Hp Hne.
  eexists. split; [|split; [|split; [|split]]].
  - eapply bind_spi_succeeds; eassumption.
  - cbn [handles]. apply lookup_insert_eq.
  - cbn [ctxs]. rewrite lookup_insert_ne by exact Hne. exact Hc0.
  - count_events.
  - count_events.
Qed.

Lemma bind_spi_rebind_leaks_witness :
  exists w' : world,
    ssd1306_bind_spi env_alloc_8192 100 1 5 4 6 0 w_bound = Done ESP_OK w' /\
    handles w' !! 100 = Some (mk_handle (Some VT_SPI) 8192) /\
    ctxs w' !! 4096 = Some (mk_ctx 77 1 4 6 8000000) /\
    free_calls (trace w') = free_calls (trace w_bound) /\
    remove_device_calls (trace w') = remove_device_calls (trace w_bound).
Proof.
  apply (bind_spi_rebind_leaks env_alloc_8192 100 1 5 4 6 0 w_bound
           (mk_handle (Some VT_SPI) 4096) (mk_ctx 77 1 4 6 8000000) 78 8192).
  - discriminate.
  - discriminate.
  - reflexivity.
  - discriminate.
  - reflexivity.
  - reflexivity.
  - reflexivity.
  - discriminate.
  - discriminate.
Defined.

(** X8: calls on one handle never touch another.  Whatever binds and
    unbinds run on the handle at [d], in whatever environment, every
    other handle reads afterwards what it read before. *)
Theorem calls_leave_other_handles_alone (env : environment) (d d' : ptr)
    (calls : list api_call) (w : world) :
  d <> NULL ->
  handle_wf w d ->
  d' <> d ->
  exists (es : list esp_err_t) (w' : world),
    run_calls env d calls w = Done es w' /\
    handles w' !! d' = handles w !! d'.
Proof.
  intros Hd Hwf Hne. revert w Hwf.
  induction calls as [| c calls IH]; intros w Hwf.
  - exists [], w. split; reflexivity.
  - destruct (run_call_frame env d c w Hd Hwf)
      as (e & w1 & Hrun & Hwf1 & Hframe).
    destruct (IH w1 Hwf1) as (es & w' & Hrest & Hsame).
    exists (e :: es), w'. split.
    + cbn [run_calls].
      rewrite (bind_Done _ _ _ _ _ Hrun), (bind_Done _ _ _ _ _ Hrest).
      reflexivity.
    + rewrite Hsame. apply Hframe. exact Hne.
Qed.

Lemma calls_leave_other_handles_alone_witness :
  exists (es : list esp_err_t) (w' : world),
    run_calls env_alloc_8192 100
      [CallBind 1 5 4 6 0; CallUnbind; CallBind 1 5 4 GPIO_NUM_NC 1000000]
      w_two_handles = Done es w' /\
    handles w' !! 200 = handles w_two_handles !! 200.
Proof.
  apply (calls_leave_other_handles_alone env_alloc_8192 100 200
           [CallBind 1 5 4 6 0; CallUnbind;
            CallBind 1 5 4 GPIO_NUM_NC 1000000] w_two_handles).
  - discriminate.
  - exists (mk_handle None NULL).
    split; [reflexivity|]. split.
    + left. split; reflexivity.
    + intros H. exfalso. apply H. reflexivity.
  - discriminate.
Defined.

(* ------------------------------------------------------------------ *)
(** ** The shape of what is sent *)

(** X9: the chunking is greedy.  In a run of [spi_send_data] every
    transaction but the last carries exactly 1024 bytes, and a run that
    ends in [ESP_OK] is made of ceil(n / 1024) transactions; the same
    holds for [spi_send_cmd] with 32. *)
Theorem spi_send_exact_chunks (env : environment) (ctx : ptr)
    (c : ssd1306_spi_ctx_t) (payload : list byte) (w : world) :
  ctx <> NULL ->
  ctxs w !! ctx = Some c ->
  payload <> [] ->
  Z.of_nat (length payload) < 2 ^ 32 ->
  exact_chunking 1024 c payload w
    (spi_send_data env ctx (Some payload) (Z.of_nat (length payload)) w) /\
  exact_chunking 32 c payload w
    (spi_send_cmd env ctx (Some payload) (Z.of_nat (length payload)) w).
Proof.
  intros Hctx Hlive Hne Hsize.
  assert (Hn : (ctx =? NULL) || (Z.of_nat (length payload) =? 0) = false).
  { destruct (Z.eqb_spec ctx NULL) as [? | _]; [contradiction|].
    destruct (Z.eqb_spec (Z.of_nat (length payload)) 0) as [H0 | _];
      [|reflexivity].
    destruct payload; [contradiction | discriminate]. }
  unfold spi_send_data, spi_send_cmd. rewrite Hn.
  split.
  - destruct (spi_send_loop_shape env 1024 1 ctx c payload ltac:(lia) Hsize
                (Z.to_nat (Z.of_nat (length payload))) 0 w)
      as (txs & e & Hrun & _ & Hsizes & Hcount); [lia | lia | exact Hlive |].
    exists txs, e. split; [exact Hrun|]. split; [exact Hsizes|].
    intros Hok. rewrite (Hcount Hok). f_equal. lia.
  - destruct (spi_send_loop_shape env 32 0 ctx c payload ltac:(lia) Hsize
                (Z.to_nat (Z.of_nat (length payload))) 0 w)
      as (txs & e & Hrun & _ & Hsizes & Hcount); [lia | lia | exact Hlive |].
    exists txs, e. split; [exact Hrun|]. split; [exact Hsizes|].
    intros Hok. rewrite (Hcount Hok). f_equal. lia.
Qed.

Lemma spi_send_exact_chunks_witness :
  exact_chunking 1024 (mk_ctx 77 1 4 6 8000000) (repeat x2a 2500) w_bound
    (spi_send_data env_all_ok 4096 (Some (repeat x2a 2500))
       (Z.of_nat (length (repeat x2a 2500))) w_bound) /\
  exact_chunking 32 (mk_ctx 77 1 4 6 8000000) (repeat x2a 2500) w_bound
    (spi_send_cmd env_all_ok 4096 (Some (repeat x2a 2500))
       (Z.of_nat (length (repeat x2a 2500))) w_bound).
Proof.
  apply (spi_send_exact_chunks env_all_ok 4096 (mk_ctx 77 1 4 6 8000000)
           (repeat x2a 2500) w_bound).
  - discriminate.
  - reflexivity.
  - discriminate.
  - vm_compute. reflexivity.
Defined.

(** X10: a payload that fits one chunk goes out whole in one transaction,
    and the call returns whatever that transaction returned: up to 1024
    bytes for [spi_send_data] (a 128x64 frame buffer is 1024 bytes), up to
    32 for [spi_send_cmd]. *)
Theorem spi_send_single_transaction (env : environment) (ctx : ptr)
    (c : ssd1306_spi_ctx_t) (payload : list byte) (w : world) :
  ctx <> NULL ->
  ctxs w !! ctx = Some c ->
  payload <> [] ->
  (Z.of_nat (length payload) <= 1024 ->
   spi_send_data env ctx (Some payload) (Z.of_nat (length payload)) w =
   Done (env_polling_transmit env (trace w) (dev c)
           (mk_transaction (8 * Z.of_nat (length payload)) payload
                           (pack_user ctx 1)))
        (mk_world
           (trace w ++
            [EvSpiPollingTransmit (dev c)
               (mk_transaction (8 * Z.of_nat (length payload)) payload
                               (pack_user ctx 1))
               (env_polling_transmit env (trace w) (dev c)
                  (mk_transaction (8 * Z.of_nat (length payload)) payload
                                  (pack_user ctx 1)))])
           (ctxs w) (handles w))) /\
  (Z.of_nat (length payload) <= 32 ->
   spi_send_cmd env ctx (Some payload) (Z.of_nat (length payload)) w =
   Done (env_polling_transmit env (trace w) (dev c)
           (mk_transaction (8 * Z.of_nat (length payload)) payload
                           (pack_user ctx 0)))
        (mk_world
           (trace w ++
            [EvSpiPollingTransmit (dev c)
               (mk_transaction (8 * Z.of_nat (length payload)) payload
                               (pack_user ctx 0))
               (env_polling_transmit env (trace w) (dev c)
                  (mk_transaction (8 * Z.of_nat (length payload)) payload
                                  (pack_user ctx 0)))])
           (ctxs w) (handles w))).
Proof.
  intros Hctx Hlive Hne.
  assert (Hpos : 0 < Z.of_nat (length payload)).
  { destruct payload; [contradiction | cbn [length]; lia]. }
  assert (Hn : (ctx =? NULL) || (Z.of_nat (length payload) =? 0) = false).
  { destruct (Z.eqb_spec ctx NULL) as [? | _]; [contradiction|].
    destruct (Z.eqb_spec (Z.of_nat (length payload)) 0); [lia|reflexivity]. }
  unfold spi_send_data, spi_send_cmd. rewrite Hn.
  split; intros Hfit.
  - apply (spi_send_loop_single env 1024 1 ctx c payload); try lia.
    exact Hlive.
  - apply (spi_send_loop_single env 32 0 ctx c payload); try lia.
    exact Hlive.
Qed.

Lemma spi_send_single_transaction_witness :
  spi_send_data env_all_ok 4096 (Some (repeat x2a 1024))
                (Z.of_nat (length (repeat x2a 1024))) w_bound =
  Done ESP_OK
       (mk_world
          [EvSpiPollingTransmit 77
             (mk_transaction 8192 (repeat x2a 1024) 4097) ESP_OK]
          (ctxs w_bound) (handles w_bound)).
Proof.
  destruct (spi_send_single_transaction env_all_ok 4096
              (mk_ctx 77 1 4 6 8000000) (repeat x2a 1024) w_bound)
    as [Hdata _].
  - discriminate.
  - reflexivity.
  - discriminate.
  - apply Hdata. vm_compute. discriminate.
Defined.

(* ------------------------------------------------------------------ *)
(** ** The packed word when the address is odd *)

(** X11: the packing depends on the context's address being even.  For an
    address that fits a pointer, [unpack_ctx] gives back the packed
    address exactly when its lowest bit is clear; what [unpack_ctx]
    returns always has the lowest bit clear; and [unpack_dc] returns the
    address's lowest bit or-ed with [dc & 1], hence 1 for every odd
    address. *)
Theorem pack_user_needs_alignment (ctx dc : Z) :
  0 <= ctx < 2 ^ uintptr_bits ->
  (unpack_ctx (pack_user ctx dc) = ctx <-> Z.testbit ctx 0 = false) /\
  Z.testbit (unpack_ctx (pack_user ctx dc)) 0 = false /\
  unpack_dc (pack_user ctx dc) = Z.lor (Z.land ctx 1) (Z.land dc 1).
Proof.
  intros Hrange.
  assert (Hclear : Z.testbit (unpack_ctx (pack_user ctx dc)) 0 = false).
  { unfold unpack_ctx. rewrite Z.land_spec, testbit_clear_mask by lia.
    apply andb_false_r. }
  split; [|split].
  - split.
    + intros Heq. rewrite Heq in Hclear. exact Hclear.
    + intros Hlow. apply unpack_ctx_pack_user; assumption.
  - exact Hclear.
  - apply unpack_dc_pack_user_any.
Qed.

Lemma pack_user_needs_alignment_witness :
  unpack_ctx (pack_user 4097 0) <> 4097 /\
  unpack_dc (pack_user 4097 0) = 1.
Proof.
  destruct (pack_user_needs_alignment 4097 0) as (Hiff & _ & Hdc).
  - unfold uintptr_bits. lia.
  - split.
    + intros Heq. apply Hiff in Heq. discriminate Heq.
    + rewrite Hdc. reflexivity.
Defined.

(* ------------------------------------------------------------------ *)
(** ** Sending and the pre-transfer callback *)

(** X12: what the senders pack is what the callback acts on.  For a live,
    aligned context with a D/C pin, the pre-transfer callback, run on any
    transaction issued by [spi_send_cmd], drives the D/C pin low; run on
    any transaction issued by [spi_send_data], it drives the pin high. *)
Theorem spi_send_callback_sets_dc (env : environment) (ctx : ptr)
    (c : ssd1306_spi_ctx_t) (payload : list byte) (w : world) :
  ctx <> NULL ->
  0 <= ctx < 2 ^ uintptr_bits ->
  Z.testbit ctx 0 = false ->
  ctxs w !! ctx = Some c ->
  dc_gpio c <> GPIO_NUM_NC ->
  payload <> [] ->
  Z.of_nat (length payload) < 2 ^ 32 ->
  (exists (txs : list (spi_transaction_t * esp_err_t)) (e : esp_err_t),
     spi_send_cmd env ctx (Some payload) (Z.of_nat (length payload)) w =
     Done e (mk_world (trace w ++ transmit_events (dev c) txs)
                      (ctxs w) (handles w)) /\
     Forall (fun x => callback_drives_dc ctx c 0 (fst x)) txs) /\
  (exists (txs : list (spi_transaction_t * esp_err_t)) (e : esp_err_t),
     spi_send_data env ctx (Some payload) (Z.of_nat (length payload)) w =
     Done e (mk_world (trace w ++ transmit_events (dev c) txs)
                      (ctxs w) (handles w)) /\
     Forall (fun x => callback_drives_dc ctx c 1 (fst x)) txs).
Proof.
  intros Hctx Hrange Hlow Hlive Hdc Hne Hsize.
  assert (Hn : (ctx =? NULL) || (Z.of_nat (length payload) =? 0) = false).
  { destruct (Z.eqb_spec ctx NULL) as [? | _]; [contradiction|].
    destruct (Z.eqb_spec (Z.of_nat (length payload)) 0) as [H0 | _];
      [|reflexivity].
    destruct payload; [contradiction | discriminate]. }
  unfold spi_send_data, spi_send_cmd. rewrite Hn.
  split.
  - destruct (spi_send_chunked env 32 0 ctx c payload w)
      as (txs & e & Hrun & Hchunks & _);
      try assumption; try lia.
    { rewrite unpack_dc_pack_user by assumption. reflexivity. }
    exists txs, e. split; [exact Hrun|].
    eapply Forall_impl; [exact Hchunks|].
    intros [t e'] (_ & _ & Huser & _) w2 Hlive2. cbn [fst] in *.
    apply (spi_pre_cb_set_dc_packed ctx 0 c t w2); assumption.
  - destruct (spi_send_chunked env 1024 1 ctx c payload w)
      as (txs & e & Hrun & Hchunks & _);
      try assumption; try lia.
    { rewrite unpack_dc_pack_user by assumption. reflexivity. }
    exists txs, e. split; [exact Hrun|].
    eapply Forall_impl; [exact Hchunks|].
    intros [t e'] (_ & _ & Huser & _) w2 Hlive2. cbn [fst] in *.
    apply (spi_pre_cb_set_dc_packed ctx 1 c t w2); assumption.
Qed.

Lemma spi_send_callback_sets_dc_witness :
  (exists (txs : list (spi_transaction_t * esp_err_t)) (e : esp_err_t),
     spi_send_cmd env_all_ok 4096 (Some (repeat x2a 70))
                  (Z.of_nat (length (repeat x2a 70))) w_bound =
     Done e (mk_world (trace w_bound ++ transmit_events 77 txs)
                      (ctxs w_bound) (handles w_bound)) /\
     Forall (fun x => callback_drives_dc 4096 (mk_ctx 77 1 4 6 8000000) 0
                        (fst x)) txs) /\
  (exists (txs : list (spi_transaction_t * esp_err_t)) (e : esp_err_t),
     spi_send_data env_all_ok 4096 (Some (repeat x2a 70))
                   (Z.of_nat (length (repeat x2a 70))) w_bound =
     Done e (mk_world (trace w_bound ++ transmit_events 77 txs)
                      (ctxs w_bound) (handles w_bound)) /\
     Forall (fun x => callback_drives_dc 4096 (mk_ctx 77 1 4 6 8000000) 1
                        (fst x)) txs).
Proof.
  apply (spi_send_callback_sets_dc env_all_ok 4096
           (mk_ctx 77 1 4 6 8000000) (repeat x2a 70) w_bound).
  - discriminate.
  - unfold uintptr_bits. lia.
  - reflexivity.
  - reflexivity.
  - discriminate.
  - discriminate.
  - vm_compute. reflexivity.
Defined.

(* ------------------------------------------------------------------ *)
(** ** From bind to the vtable methods *)

(** X13: what a successful bind publishes works.  After it, the handle
    points to [VT_SPI] and to a context through which the three methods of
    that vtable act on what the bind was given: [send_cmd] and [send_data]
    transfer a non-empty payload in chunks on the device the bus handed
    out, and [reset] pulses the reset pin passed to the bind (low, 10 ms,
    high, 10 ms), or does nothing when there is none. *)
Theorem bind_spi_then_vtable (env : environment) (d : ptr) (host_ : Z)
    (cs_gpio dc_gpio_ rst_gpio_ : gpio_num_t) (clk_hz_ : Z) (w : world)
    (h0 : ssd1306_t) (dev_ : Z) (p : ptr) (payload : list byte) :
  d <> NULL ->
  dc_gpio_ <> GPIO_NUM_NC ->
  handles w !! d = Some h0 ->
  env_add_device env (bind_setup_trace w dc_gpio_ rst_gpio_) host_
                 (bind_devcfg cs_gpio clk_hz_) = (ESP_OK, dev_) ->
  env_calloc env (bind_setup_trace w dc_gpio_ rst_gpio_ ++
                  [EvSpiBusAddDevice host_ (bind_devcfg cs_gpio clk_hz_)
                                     ESP_OK dev_]) = p ->
  p <> NULL ->
  0 <= p < 2 ^ uintptr_bits ->
  Z.testbit p 0 = false ->
  payload <> [] ->
  Z.of_nat (length payload) < 2 ^ 32 ->
  exists w' : world,
    ssd1306_bind_spi env d host_ cs_gpio dc_gpio_ rst_gpio_ clk_hz_ w =
    Done ESP_OK w' /\
    handles w' !! d = Some (mk_handle (Some VT_SPI) p) /\
    chunked_transfer 32 0 p
      (mk_ctx dev_ host_ dc_gpio_ rst_gpio_
              (if clk_hz_ <=? 0 then 8000000 else clk_hz_))
      payload w'
      (send_cmd (VT_SPI_table env) p (Some payload)
                (Z.of_nat (length payload)) w') /\
    chunked_transfer 1024 1 p
      (mk_ctx dev_ host_ dc_gpio_ rst_gpio_
              (if clk_hz_ <=? 0 then 8000000 else clk_hz_))
      payload w'
      (send_data (VT_SPI_table env) p (Some payload)
                 (Z.of_nat (length payload)) w') /\
    reset (VT_SPI_table env) p w' =
    Done ESP_OK
         (mk_world
            (trace w' ++
             (if rst_gpio_ =? GPIO_NUM_NC then []
              else [EvGpioSetLevel rst_gpio_ 0; EvTaskDelayMs 10;
                    EvGpioSetLevel rst_gpio_ 1; EvTaskDelayMs 10]))
            (ctxs w') (handles w')).
Proof.
  intros Hd Hdc Hh Hadd Hcalloc Hp Hrange Hlow Hne Hsize.
  pose proof (bind_spi_succeeds env d host_ cs_gpio dc_gpio_ rst_gpio_
                clk_hz_ w Hd Hdc h0 dev_ p Hh Hadd Hcalloc Hp) as Hbind.
  match type of Hbind with _ = Done _ ?x => set (w1 := x) in * end.
  assert (Hlive : ctxs w1 !! p =
                  Some (mk_ctx dev_ host_ dc_gpio_ rst_gpio_
                          (if clk_hz_ <=? 0 then 8000000 else clk_hz_)))
    by (cbn [w1 ctxs]; apply lookup_insert_eq).
  assert (Hn : (p =? NULL) || (Z.of_nat (length payload) =? 0) = false).
  { destruct (Z.eqb_spec p NULL) as [? | _]; [contradiction|].
    destruct (Z.eqb_spec (Z.of_nat (length payload)) 0) as [H0 | _];
      [|reflexivity].
    destruct payload; [contradiction | discriminate]. }
  exists w1. split; [exact Hbind|].
  split; [cbn [w1 handles]; apply lookup_insert_eq|].
  cbn [VT_SPI_table send_cmd send_data reset].
  unfold spi_send_cmd, spi_send_data. rewrite Hn.
  split; [|split].
  - apply spi_send_chunked; try assumption; try lia.
    rewrite unpack_dc_pack_user by assumption. reflexivity.
  - apply spi_send_chunked; try assumption; try lia.
    rewrite unpack_dc_pack_user by assumption. reflexivity.
  - rewrite (spi_reset_run p _ w1 Hp Hlive). reflexivity.
Qed.

Lemma bind_spi_then_vtable_witness :
  exists w' : world,
    ssd1306_bind_spi env_all_ok 100 1 5 4 6 0 w_unbound = Done ESP_OK w' /\
    handles w' !! 100 = Some (mk_handle (Some VT_SPI) 4096) /\
    chunked_transfer 32 0 4096
      (mk_ctx 77 1 4 6 (if 0 <=? 0 then 8000000 else 0))
      (repeat x2a 40) w'
      (send_cmd (VT_SPI_table env_all_ok) 4096 (Some (repeat x2a 40))
                (Z.of_nat (length (repeat x2a 40))) w') /\
    chunked_transfer 1024 1 4096
      (mk_ctx 77 1 4 6 (if 0 <=? 0 then 8000000 else 0))
      (repeat x2a 40) w'
      (send_data (VT_SPI_table env_all_ok) 4096 (Some (repeat x2a 40))
                 (Z.of_nat (length (repeat x2a 40))) w') /\
    reset (VT_SPI_table env_all_ok) 4096 w' =
    Done ESP_OK
         (mk_world
            (trace w' ++
             (if 6 =? GPIO_NUM_NC then []
              else [EvGpioSetLevel 6 0; EvTaskDelayMs 10;
                    EvGpioSetLevel 6 1; EvTaskDelayMs 10]))
            (ctxs w') (handles w')).
Proof.
  apply (bind_spi_then_vtable env_all_ok 100 1 5 4 6 0 w_unbound
           (mk_handle None NULL) 77 4096 (repeat x2a 40)).
  - discriminate.
  - discriminate.
  - reflexivity.
  - reflexivity.
  - reflexivity.
  - discriminate.
  - unfold uintptr_bits. lia.
  - reflexivity.
  - discriminate.
  - vm_compute. reflexivity.
Defined.

(* ------------------------------------------------------------------ *)
(** ** The GPIO helpers *)


